(** * KMSCSRBuilder: a shallow embedding of kmscsrbuilder/__init__.py

    The builder object is a record, its mutators are state transformers
    that may raise, and the three remote calls of the boto3 KMS client are
    fields of a client record that every operation using the network takes
    as an argument.  The parts of asn1crypto and oscrypto the builder calls
    are parameters of the development. *)

From Stdlib Require Import ZArith Lia Sorted Permutation.
From Stdlib Require Import Strings.String Strings.Ascii Strings.Byte.
From stdpp Require Import gmap strings list fin_maps.

Local Open Scope string_scope.
Local Open Scope Z_scope.

(** ** Python built-ins used by the module *)

Module Py.

(** [needle in hay] on two strings: substring test. *)
Fixpoint str_in (needle hay : string) : bool :=
  String.prefix needle hay ||
  match hay with
  | EmptyString => false
  | String _ rest => str_in needle rest
  end.

(** [x in l] on a list of strings. *)
Definition list_in (x : string) (l : list string) : bool :=
  bool_decide (x ∈ l).

(** [s[-3:]]: the last three characters, or all of [s] when it is shorter. *)
Definition last3 (s : string) : string :=
  String.substring (String.length s - 3) 3 s.

(** ['%s_%s' % (a, b)] *)
Definition fmt2 (a b : string) : string := a ++ "_" ++ b.

Definition digit_of (c : ascii) : option Z :=
  let n := Z.of_nat (nat_of_ascii c) in
  if (48 <=? n) && (n <=? 57) then Some (n - 48) else None.

Fixpoint digits (acc : Z) (s : string) : option Z :=
  match s with
  | EmptyString => Some acc
  | String c rest =>
      match digit_of c with
      | Some d => digits (10 * acc + d) rest
      | None => None
      end
  end.

(** [int(s)] on a string of ASCII decimal digits with an optional sign;
    [None] stands for the ValueError that [int] raises.  (Surrounding
    white space and underscores, which [int] also accepts, do not occur
    in a three-character suffix of a hash name the builder accepts.) *)
Definition int (s : string) : option Z :=
  match s with
  | EmptyString => None
  | String "-" (String _ _ as rest) => Z.opp <$> digits 0 rest
  | String "+" (String _ _ as rest) => digits 0 rest
  | _ => digits 0 s
  end.

(** [sorted(l)] for strings: insertion sort on the code-point order.  The
    builder only sorts the elements of a set and the keys of a dict, which
    are pairwise distinct, so stability is not observable. *)
Fixpoint insert_sorted (x : string) (l : list string) : list string :=
  match l with
  | [] => [x]
  | y :: l' => if String.leb x y then x :: y :: l' else y :: insert_sorted x l'
  end.

Fixpoint sorted (l : list string) : list string :=
  match l with
  | [] => []
  | x :: l' => insert_sorted x (sorted l')
  end.

End Py.

(* These are evaluated on concrete arguments only, by computation. *)
Arguments Py.str_in : simpl never.
Arguments Py.list_in : simpl never.
Arguments Py.last3 : simpl never.
Arguments Py.fmt2 : simpl never.
Arguments Py.int : simpl never.
Arguments Py.sorted : simpl never.

(** ** Exceptions and the state-and-exception monad *)

Inductive exn : Type :=
| TypeError
| ValueError
| UnboundLocalError
| ClientError.        (* any exception raised by a remote call *)

Inductive outcome (A : Type) : Type :=
| Return (a : A)
| Raise (e : exn).
Arguments Return {A} a.
Arguments Raise {A} e.

Definition of_option {A} (e : exn) (o : option A) : outcome A :=
  match o with Some a => Return a | None => Raise e end.

(** A computation over a mutable object of type [S]: it ends by returning
    or raising, and in both cases leaves the object in some state. *)
Definition M (S A : Type) : Type := S → outcome A * S.

Definition ret {S A} (a : A) : M S A := fun s => (Return a, s).
Definition raise {S A} (e : exn) : M S A := fun s => (Raise e, s).
Definition bind {S A B} (m : M S A) (k : A → M S B) : M S B :=
  fun s => match m s with
           | (Return a, s') => k a s'
           | (Raise e, s') => (Raise e, s')
           end.
Definition get {S} : M S S := fun s => (Return s, s).
Definition modify {S} (f : S → S) : M S unit := fun s => (Return tt, f s).
Definition lift {S A} (o : outcome A) : M S A := fun s => (o, s).

#[global] Instance M_ret {S} : MRet (M S) := @ret S.
#[global] Instance M_bind {S} : MBind (M S) := fun A B k m => bind m k.

(** [for x in l: body(x)] *)
Fixpoint for_each {S A} (l : list A) (body : A → M S unit) : M S unit :=
  match l with
  | [] => ret tt
  | x :: l' => body x ;; for_each l' body
  end.

(** ** Data model *)

Definition bytes : Type := list Byte.byte.

(** The values of asn1crypto.x509 that the builder inspects.  A value of
    any other class is kept as its class name and its encoding. *)
Module x509.

(** x509.Name: the sequence of relative distinguished names. *)
Definition Name : Type := list (string * string).

(** x509.GeneralName: [name] is the chosen alternative ("dns_name",
    "ip_address", ...), [native] its native value. *)
Record GeneralName := { name : string; native : string }.

Record BasicConstraints := { ca : bool; path_len_constraint : option Z }.

Inductive Asn1Class : Type :=
| CBasicConstraints
| CGeneralNames
| CKeyUsage
| CExtKeyUsageSyntax
| COther (cls : string).

Inductive Asn1Value : Type :=
| VBasicConstraints (bc : BasicConstraints)
| VGeneralNames (gns : list GeneralName)
| VKeyUsage (bits : gset string)            (* the names of the set bits *)
| VExtKeyUsageSyntax (purposes : list string)
| VOther (cls : string) (contents : bytes).

Definition class_of (v : Asn1Value) : Asn1Class :=
  match v with
  | VBasicConstraints _ => CBasicConstraints
  | VGeneralNames _ => CGeneralNames
  | VKeyUsage _ => CKeyUsage
  | VExtKeyUsageSyntax _ => CExtKeyUsageSyntax
  | VOther cls _ => COther cls
  end.

Definition as_BasicConstraints (v : Asn1Value) : option BasicConstraints :=
  match v with VBasicConstraints bc => Some bc | _ => None end.
Definition as_GeneralNames (v : Asn1Value) : option (list GeneralName) :=
  match v with VGeneralNames l => Some l | _ => None end.
Definition as_KeyUsage (v : Asn1Value) : option (gset string) :=
  match v with VKeyUsage s => Some s | _ => None end.
Definition as_ExtKeyUsageSyntax (v : Asn1Value) : option (list string) :=
  match v with VExtKeyUsageSyntax l => Some l | _ => None end.

(** One entry of the extension list: the dict built by [_make_extension]. *)
Record Extension := {
  extn_id : string;
  critical : bool;
  extn_value : Asn1Value
}.

End x509.

#[global] Instance Asn1Class_eq_dec : EqDecision x509.Asn1Class.
Proof. solve_decision. Defined.

Module algos.

Record DigestAlgorithm := { algorithm : string }.

Record MaskGenAlgorithm := {
  mgf_algorithm : string;
  mgf_parameters : DigestAlgorithm
}.

Record RSASSAPSSParams := {
  hash_algorithm : DigestAlgorithm;
  mask_gen_algorithm : MaskGenAlgorithm;
  salt_length : Z
}.

(** What [build_with_kms] binds to [signature_algorithm_id]: either the
    dict [{'algorithm': name}] or a SignedDigestAlgorithm for RSASSA-PSS
    with its parameters. *)
Inductive SignatureAlgorithmId : Type :=
| AlgorithmDict (algorithm : string)
| SignedDigestAlgorithm (algorithm : string) (parameters : RSASSAPSSParams).

End algos.

Module csr.

Record Attribute := {
  type : string;
  values : list (list x509.Extension)
}.

Record CertificationRequestInfo := {
  version : string;
  subject : x509.Name;
  subject_pk_info : bytes;
  attributes : list Attribute
}.

Record CertificationRequest := {
  certification_request_info : CertificationRequestInfo;
  signature_algorithm : algos.SignatureAlgorithmId;
  signature : bytes
}.

End csr.

(** ** The remote service and the libraries *)

(** The response of kms.get_public_key, with the two entries read. *)
Record PKresponse := { KeyUsage : string; PublicKey : bytes }.

(** The boto3 KMS client: each call returns or raises.  [describe_key]
    stands for [describe_key(KeyId=...)['KeyMetadata']['SigningAlgorithms']]
    and [sign] for [sign(KeyId, SigningAlgorithm, Message)['Signature']]. *)
Record KMSClient := {
  get_public_key : string → outcome PKresponse;
  describe_key : string → outcome (list string);
  sign : string → string → bytes → outcome bytes
}.

(** The library functions the builder calls and that are not part of this
    repository. *)
Record Asn1Lib := {
  (* x509.Extension({'extn_id': name})['extn_id'].native: the canonical
     name of an extension identity given by name or dotted OID *)
  ExtensionId_native : string → outcome string;
  (* extension.spec('extn_value') for an identity outside the four
     special ones *)
  Extension_oid_specs : string → x509.Asn1Class;
  (* the native value of x509.GeneralName(name=name, value=value) *)
  GeneralName_native : string → string → outcome string;
  (* x509.Name.build(dict) *)
  Name_build : list (string * string) → outcome x509.Name;
  (* asymmetric.load_public_key(raw).asn1, as its encoding *)
  load_public_key : bytes → outcome bytes;
  (* CertificationRequestInfo.dump() *)
  dump : csr.CertificationRequestInfo → bytes
}.

(** ** The builder object *)

Record KMSCSRBuilder := {
  _subject : x509.Name;
  _kms_arn : string;
  _subject_public_key : bytes;
  _hash_algo : string;
  _basic_constraints : option x509.BasicConstraints;
  _subject_alt_name : option (list x509.GeneralName);
  _key_usage : option (gset string);
  _extended_key_usage : option (list string);
  _other_extensions : gmap string x509.Asn1Value;
  _kms_signature_algo : string
}.

Definition with_subject (v : x509.Name) (self : KMSCSRBuilder) : KMSCSRBuilder :=
  {| _subject := v; _kms_arn := _kms_arn self;
     _subject_public_key := _subject_public_key self;
     _hash_algo := _hash_algo self;
     _basic_constraints := _basic_constraints self;
     _subject_alt_name := _subject_alt_name self;
     _key_usage := _key_usage self;
     _extended_key_usage := _extended_key_usage self;
     _other_extensions := _other_extensions self;
     _kms_signature_algo := _kms_signature_algo self |}.

Definition with_kms_arn (arn : string) (pk : bytes) (self : KMSCSRBuilder)
  : KMSCSRBuilder :=
  {| _subject := _subject self; _kms_arn := arn;
     _subject_public_key := pk;
     _hash_algo := _hash_algo self;
     _basic_constraints := _basic_constraints self;
     _subject_alt_name := _subject_alt_name self;
     _key_usage := _key_usage self;
     _extended_key_usage := _extended_key_usage self;
     _other_extensions := _other_extensions self;
     _kms_signature_algo := _kms_signature_algo self |}.

Definition with_hash_algo (v : string) (self : KMSCSRBuilder) : KMSCSRBuilder :=
  {| _subject := _subject self; _kms_arn := _kms_arn self;
     _subject_public_key := _subject_public_key self;
     _hash_algo := v;
     _basic_constraints := _basic_constraints self;
     _subject_alt_name := _subject_alt_name self;
     _key_usage := _key_usage self;
     _extended_key_usage := _extended_key_usage self;
     _other_extensions := _other_extensions self;
     _kms_signature_algo := _kms_signature_algo self |}.

Definition with_basic_constraints (v : option x509.BasicConstraints)
    (self : KMSCSRBuilder) : KMSCSRBuilder :=
  {| _subject := _subject self; _kms_arn := _kms_arn self;
     _subject_public_key := _subject_public_key self;
     _hash_algo := _hash_algo self;
     _basic_constraints := v;
     _subject_alt_name := _subject_alt_name self;
     _key_usage := _key_usage self;
     _extended_key_usage := _extended_key_usage self;
     _other_extensions := _other_extensions self;
     _kms_signature_algo := _kms_signature_algo self |}.

Definition with_subject_alt_name (v : option (list x509.GeneralName))
    (self : KMSCSRBuilder) : KMSCSRBuilder :=
  {| _subject := _subject self; _kms_arn := _kms_arn self;
     _subject_public_key := _subject_public_key self;
     _hash_algo := _hash_algo self;
     _basic_constraints := _basic_constraints self;
     _subject_alt_name := v;
     _key_usage := _key_usage self;
     _extended_key_usage := _extended_key_usage self;
     _other_extensions := _other_extensions self;
     _kms_signature_algo := _kms_signature_algo self |}.

Definition with_key_usage (v : option (gset string)) (self : KMSCSRBuilder)
  : KMSCSRBuilder :=
  {| _subject := _subject self; _kms_arn := _kms_arn self;
     _subject_public_key := _subject_public_key self;
     _hash_algo := _hash_algo self;
     _basic_constraints := _basic_constraints self;
     _subject_alt_name := _subject_alt_name self;
     _key_usage := v;
     _extended_key_usage := _extended_key_usage self;
     _other_extensions := _other_extensions self;
     _kms_signature_algo := _kms_signature_algo self |}.

Definition with_extended_key_usage (v : option (list string))
    (self : KMSCSRBuilder) : KMSCSRBuilder :=
  {| _subject := _subject self; _kms_arn := _kms_arn self;
     _subject_public_key := _subject_public_key self;
     _hash_algo := _hash_algo self;
     _basic_constraints := _basic_constraints self;
     _subject_alt_name := _subject_alt_name self;
     _key_usage := _key_usage self;
     _extended_key_usage := v;
     _other_extensions := _other_extensions self;
     _kms_signature_algo := _kms_signature_algo self |}.

Definition with_other_extensions (v : gmap string x509.Asn1Value)
    (self : KMSCSRBuilder) : KMSCSRBuilder :=
  {| _subject := _subject self; _kms_arn := _kms_arn self;
     _subject_public_key := _subject_public_key self;
     _hash_algo := _hash_algo self;
     _basic_constraints := _basic_constraints self;
     _subject_alt_name := _subject_alt_name self;
     _key_usage := _key_usage self;
     _extended_key_usage := _extended_key_usage self;
     _other_extensions := v;
     _kms_signature_algo := _kms_signature_algo self |}.

Definition with_kms_signature_algo (v : string) (self : KMSCSRBuilder)
  : KMSCSRBuilder :=
  {| _subject := _subject self; _kms_arn := _kms_arn self;
     _subject_public_key := _subject_public_key self;
     _hash_algo := _hash_algo self;
     _basic_constraints := _basic_constraints self;
     _subject_alt_name := _subject_alt_name self;
     _key_usage := _key_usage self;
     _extended_key_usage := _extended_key_usage self;
     _other_extensions := _other_extensions self;
     _kms_signature_algo := v |}.

(** Class attribute [_special_extensions]. *)
Definition _special_extensions : gset string :=
  {[ "basic_constraints"; "subject_alt_name"; "key_usage";
     "extended_key_usage" ]}.

(** The literal dict of [_determine_critical]. *)
Definition critical_table : gmap string bool :=
  list_to_map
    [ ("subject_directory_attributes", false);
      ("key_usage", true);
      ("issuer_alt_name", false);
      ("name_constraints", true);
      ("certificate_policies", false);
      ("policy_mappings", true);
      ("policy_constraints", true);
      ("extended_key_usage", false);
      ("inhibit_any_policy", true);
      ("subject_information_access", false);
      ("tls_feature", false);
      ("ocsp_no_check", false) ].

(** [valid_algos] of the [kms_signature_algo] setter. *)
Definition valid_algos : list string :=
  [ "RSASSA_PSS_SHA_256"; "RSASSA_PSS_SHA_384"; "RSASSA_PSS_SHA_512";
    "RSASSA_PKCS1_V1_5_SHA_256"; "RSASSA_PKCS1_V1_5_SHA_384";
    "RSASSA_PKCS1_V1_5_SHA_512";
    "ECDSA_SHA_256"; "ECDSA_SHA_384"; "ECDSA_SHA_512" ].

(** The argument of the [subject] setter: a Name, a dict, or anything else. *)
Inductive SubjectArg : Type :=
| SubjectName (n : x509.Name)
| SubjectDict (d : list (string * string))
| SubjectOther.

Section Builder.

Context (lib : Asn1Lib).

(** *** subject *)

(** The value the [subject] setter stores, or the exception it raises. *)
Definition subject_value (value : SubjectArg) : outcome x509.Name :=
  match value with
  | SubjectOther => Raise TypeError
  | SubjectDict d => Name_build lib d
  | SubjectName n => Return n
  end.

Definition subject (value : SubjectArg) : M KMSCSRBuilder unit :=
  v ← lift (subject_value value);
  modify (with_subject v).

(** *** kms_arn *)

(** The body of the [kms_arn] setter up to its two assignments: the public
    key info to cache or the exception raised, and the lines printed.  When
    the lookup raises, the handler prints and falls through, and the next
    statement reads the local [PKresponse], which was never bound. *)
Definition kms_arn_lookup (kms : KMSClient) (value : string)
  : outcome bytes * list string :=
  let '(PKresponse, printed) :=
    match get_public_key kms value with
    | Return r => (Some r, [])
    | Raise _ => (None, ["Could not get PublicKey"])
    end in
  match PKresponse with
  | None => (Raise UnboundLocalError, printed)
  | Some r =>
      if negb (String.eqb (KeyUsage r) "SIGN_VERIFY")
      then (Raise ValueError, printed)
      else (load_public_key lib (PublicKey r), printed)
  end.

(** The setter on an existing builder: outcome, builder and printed lines. *)
Definition kms_arn (kms : KMSClient) (value : string) (self : KMSCSRBuilder)
  : outcome unit * KMSCSRBuilder * list string :=
  match kms_arn_lookup kms value with
  | (Return pk, printed) => (Return tt, with_kms_arn value pk self, printed)
  | (Raise e, printed) => (Raise e, self, printed)
  end.

(** *** hash_algo and kms_signature_algo *)

Definition hash_algo (value : string) : M KMSCSRBuilder unit :=
  if negb (Py.list_in value ["sha1"; "sha256"; "sha512"])
  then raise ValueError
  else modify (with_hash_algo value).

Definition kms_signature_algo (value : string) : M KMSCSRBuilder unit :=
  if negb (Py.list_in value valid_algos)
  then raise ValueError
  else modify (with_kms_signature_algo value).

(** *** ca *)

Definition ca (self : KMSCSRBuilder) : option bool :=
  match _basic_constraints self with
  | None => None
  | Some bc => Some (x509.ca bc)
  end.

(** The setter; [None] is Python's None and [Some b] any other object,
    of truth value [b]. *)
Definition ca_setter (value : option bool) : M KMSCSRBuilder unit :=
  match value with
  | None => modify (with_basic_constraints None)
  | Some b =>
      modify (with_basic_constraints
                (Some {| x509.ca := b; x509.path_len_constraint := None |})) ;;
      if b then
        modify (with_key_usage (Some {[ "key_cert_sign"; "crl_sign" ]})) ;;
        modify (with_extended_key_usage (Some ["ocsp_signing"]))
      else
        modify (with_key_usage
                  (Some {[ "digital_signature"; "key_encipherment" ]})) ;;
        modify (with_extended_key_usage (Some ["server_auth"; "client_auth"]))
  end.

(** *** subject alternative names *)

Definition _get_subject_alt (name : string) (self : KMSCSRBuilder)
  : list string :=
  match _subject_alt_name self with
  | None => []
  | Some general_names =>
      x509.native <$>
        filter (λ general_name, x509.name general_name = name) general_names
  end.

(** [x509.GeneralName(name=name, value=value)] *)
Definition GeneralName_new (name value : string) : outcome x509.GeneralName :=
  match GeneralName_native lib name value with
  | Return v => Return {| x509.name := name; x509.native := v |}
  | Raise e => Raise e
  end.

Definition _set_subject_alt (name : string) (values : option (list string))
  : M KMSCSRBuilder unit :=
  self ← get;
  match _subject_alt_name self with
  | Some general_names =>
      modify (with_subject_alt_name
        (Some (filter (λ general_name, x509.name general_name ≠ name)
                      general_names)))
  | None => modify (with_subject_alt_name (Some []))
  end ;;
  match values with
  | Some values =>
      for_each values (λ value,
        new_general_name ← lift (GeneralName_new name value);
        modify (λ self, with_subject_alt_name
                  ((λ l, (l ++ [new_general_name])%list) <$> _subject_alt_name self)
                  self))
  | None => ret tt
  end ;;
  self ← get;
  if bool_decide (length (default [] (_subject_alt_name self)) = 0%nat)
  then modify (with_subject_alt_name None)
  else ret tt.

Definition subject_alt_domains (self : KMSCSRBuilder) : list string :=
  _get_subject_alt "dns_name" self.
Definition subject_alt_domains_setter (value : option (list string))
  : M KMSCSRBuilder unit :=
  _set_subject_alt "dns_name" value.

Definition subject_alt_ips (self : KMSCSRBuilder) : list string :=
  _get_subject_alt "ip_address" self.
Definition subject_alt_ips_setter (value : option (list string))
  : M KMSCSRBuilder unit :=
  _set_subject_alt "ip_address" value.

(** *** key_usage and extended_key_usage (readers) *)

Definition key_usage (self : KMSCSRBuilder) : gset string :=
  match _key_usage self with
  | None => ∅
  | Some bits => bits
  end.

Definition extended_key_usage (self : KMSCSRBuilder) : gset string :=
  match _extended_key_usage self with
  | None => ∅
  | Some purposes => list_to_set purposes
  end.

(** *** set_extension *)

(** [extension.spec('extn_value')] for a canonical name.  For the four
    special identities asn1crypto expects the classes that the property
    setters of the builder store in the same fields. *)
Definition Extension_spec (name : string) : x509.Asn1Class :=
  if String.eqb name "basic_constraints" then x509.CBasicConstraints
  else if String.eqb name "subject_alt_name" then x509.CGeneralNames
  else if String.eqb name "key_usage" then x509.CKeyUsage
  else if String.eqb name "extended_key_usage" then x509.CExtKeyUsageSyntax
  else Extension_oid_specs lib name.

(** [isinstance(value, spec)]; [class_of] names the class of the
    specification table that the value is an instance of. *)
Definition isinstance (value : x509.Asn1Value) (spec : x509.Asn1Class) : bool :=
  bool_decide (x509.class_of value = spec).

(** [setattr(self, '_%s' % name, value)] for a special identity. *)
Definition setattr_special (name : string) (value : option x509.Asn1Value)
    (self : KMSCSRBuilder) : KMSCSRBuilder :=
  if String.eqb name "basic_constraints"
  then with_basic_constraints (value ≫= x509.as_BasicConstraints) self
  else if String.eqb name "subject_alt_name"
  then with_subject_alt_name (value ≫= x509.as_GeneralNames) self
  else if String.eqb name "key_usage"
  then with_key_usage (value ≫= x509.as_KeyUsage) self
  else if String.eqb name "extended_key_usage"
  then with_extended_key_usage (value ≫= x509.as_ExtKeyUsageSyntax) self
  else self.

(** [getattr(self, '_%s' % name)] for a special identity. *)
Definition getattr_special (name : string) (self : KMSCSRBuilder)
  : option x509.Asn1Value :=
  if String.eqb name "basic_constraints"
  then x509.VBasicConstraints <$> _basic_constraints self
  else if String.eqb name "subject_alt_name"
  then x509.VGeneralNames <$> _subject_alt_name self
  else if String.eqb name "key_usage"
  then x509.VKeyUsage <$> _key_usage self
  else if String.eqb name "extended_key_usage"
  then x509.VExtKeyUsageSyntax <$> _extended_key_usage self
  else None.

Definition set_extension (name : string) (value : option x509.Asn1Value)
  : M KMSCSRBuilder unit :=
  name ← lift (ExtensionId_native lib name);
  let spec := Extension_spec name in
  match value with
  | Some v => if negb (isinstance v spec) then raise TypeError else ret tt
  | None => ret tt
  end ;;
  if bool_decide (name ∈ _special_extensions)
  then modify (setattr_special name value)
  else
    match value with
    | None =>
        self ← get;
        if bool_decide (is_Some (_other_extensions self !! name))
        then modify (λ self,
               with_other_extensions (delete name (_other_extensions self)) self)
        else ret tt
    | Some v =>
        modify (λ self,
          with_other_extensions (<[name := v]> (_other_extensions self)) self)
    end.

(** *** _determine_critical *)

Definition _determine_critical (name : string) (self : KMSCSRBuilder) : bool :=
  if String.eqb name "subject_alt_name"
  then bool_decide (length (_subject self) = 0%nat)
  else if String.eqb name "basic_constraints"
  then bool_decide (ca self = Some true)
  else default false (critical_table !! name).

(** *** build_with_kms *)

(** Lines 492-495: the local [signature_algo], unbound ([None]) when
    neither test succeeds. *)
Definition select_key_type (kms_algos : list string) : option string :=
  if Py.list_in "RSASSA_PSS_SHA_256" kms_algos then Some "rsa"
  else if Py.list_in "ECDSA_SHA_256" kms_algos then Some "ecdsa"
  else None.

(** Lines 499-526: binds [signature_algorithm_id] and assigns the
    [kms_signature_algo] property, whose setter validates the name.  The
    result is [None] when neither branch binds the local. *)
Definition negotiate (signature_algo : string)
  : M KMSCSRBuilder (option algos.SignatureAlgorithmId) :=
  self ← get;
  if Py.str_in "ecdsa" signature_algo then
    let signature_algorithm_id :=
      algos.AlgorithmDict (Py.fmt2 (_hash_algo self) signature_algo) in
    kms_signature_algo (Py.fmt2 "ECDSA_SHA" (Py.last3 (_hash_algo self))) ;;
    ret (Some signature_algorithm_id)
  else if Py.str_in "rsa" signature_algo then
    if Py.str_in "PSS" (_kms_signature_algo self) then
      salt ← lift (of_option ValueError (Py.int (Py.last3 (_hash_algo self))));
      let signature_algorithm_id :=
        algos.SignedDigestAlgorithm "rsassa_pss"
          {| algos.hash_algorithm := {| algos.algorithm := _hash_algo self |};
             algos.mask_gen_algorithm :=
               {| algos.mgf_algorithm := "mgf1";
                  algos.mgf_parameters :=
                    {| algos.algorithm := _hash_algo self |} |};
             algos.salt_length := salt / 8 |} in
      kms_signature_algo (Py.fmt2 "RSASSA_PSS_SHA" (Py.last3 (_hash_algo self))) ;;
      ret (Some signature_algorithm_id)
    else
      let signature_algorithm_id :=
        algos.AlgorithmDict (Py.fmt2 (_hash_algo self) signature_algo) in
      kms_signature_algo
        (Py.fmt2 "RSASSA_PKCS1_V1_5_SHA" (Py.last3 (_hash_algo self))) ;;
      ret (Some signature_algorithm_id)
  else ret None.

Definition _make_extension (self : KMSCSRBuilder) (name : string)
    (value : x509.Asn1Value) : x509.Extension :=
  {| x509.extn_id := name;
     x509.critical := _determine_critical name self;
     x509.extn_value := value |}.

(** Lines 536-543: the list [extensions]. *)
Definition extensions (self : KMSCSRBuilder) : list x509.Extension :=
  (omap (λ name, _make_extension self name <$> getattr_special name self)
        (Py.sorted (elements _special_extensions))
   ++
   omap (λ name, _make_extension self name <$> (_other_extensions self !! name))
        (Py.sorted (elements (dom (_other_extensions self)))))%list.

(** Lines 545-557. *)
Definition certification_request_info (self : KMSCSRBuilder)
  : csr.CertificationRequestInfo :=
  let extensions := extensions self in
  let attributes :=
    match extensions with
    | [] => []
    | _ => [ {| csr.type := "extension_request";
                csr.values := [extensions] |} ]
    end in
  {| csr.version := "v1";
     csr.subject := _subject self;
     csr.subject_pk_info := _subject_public_key self;
     csr.attributes := attributes |}.

(** Lines 499-568, for a bound [signature_algo]: negotiation, assembly of
    the request info, the remote signature over its encoding, and the
    request returned. *)
Definition sign_request (kms : KMSClient) (kms_arn : string)
    (signature_algo : string) : M KMSCSRBuilder csr.CertificationRequest :=
  signature_algorithm_id ← negotiate signature_algo;
  self ← get;
  let certification_request_info := certification_request_info self in
  signature ← lift (sign kms kms_arn (_kms_signature_algo self)
                         (dump lib certification_request_info));
  signature_algorithm_id ← lift (of_option UnboundLocalError signature_algorithm_id);
  ret {| csr.certification_request_info := certification_request_info;
         csr.signature_algorithm := signature_algorithm_id;
         csr.signature := signature |}.

(** The first read of [signature_algo], at line 499, raises when the local
    was left unbound. *)
Definition build_with_kms (kms : KMSClient) (kms_arn : string)
  : M KMSCSRBuilder csr.CertificationRequest :=
  kms_algos ← lift (describe_key kms kms_arn);
  signature_algo ← lift (of_option UnboundLocalError (select_key_type kms_algos));
  sign_request kms kms_arn signature_algo.

(** *** __init__ *)

(** The constructor: the [subject] and [kms_arn] setters run first and may
    raise, then [ca = False], then the three defaults.  The result carries
    the lines printed. *)
Definition __init__ (kms : KMSClient) (subject : SubjectArg) (kms_arn : string)
  : outcome KMSCSRBuilder * list string :=
  match subject_value subject with
  | Raise e => (Raise e, [])
  | Return name =>
      match kms_arn_lookup kms kms_arn with
      | (Raise e, printed) => (Raise e, printed)
      | (Return pk, printed) =>
          (Return
             {| _subject := name;
                _kms_arn := kms_arn;
                _subject_public_key := pk;
                _hash_algo := "sha256";
                _basic_constraints :=
                  Some {| x509.ca := false; x509.path_len_constraint := None |};
                _subject_alt_name := None;
                _key_usage := Some {[ "digital_signature"; "key_encipherment" ]};
                _extended_key_usage := Some ["server_auth"; "client_auth"];
                _other_extensions := ∅;
                _kms_signature_algo := "RSASSA_PSS_SHA_256" |},
           printed)
      end
  end.

End Builder.

(** ** The setters of key_usage and extended_key_usage *)

(** The argument of the two setters: None, a set, or anything else. *)
Inductive SetArg : Type :=
| ArgNone
| ArgSet (s : gset string)
| ArgOther.

(** The two constructors of asn1crypto the setters call. *)
Record UsageLib := {
  (* x509.KeyUsage(value), as the names of the bits of the value built *)
  KeyUsage_new : gset string → outcome (gset string);
  (* x509.ExtKeyUsageSyntax(list(value)), as the list of the value built *)
  ExtKeyUsageSyntax_new : gset string → outcome (list string)
}.

Section UsageSetters.

Context (ulib : UsageLib).

Definition key_usage_setter (value : SetArg) : M KMSCSRBuilder unit :=
  match value with
  | ArgOther => raise TypeError
  | ArgNone => modify (with_key_usage None)
  | ArgSet s =>
      if bool_decide (s = ∅) then modify (with_key_usage None)
      else
        v ← lift (KeyUsage_new ulib s);
        modify (with_key_usage (Some v))
  end.

Definition extended_key_usage_setter (value : SetArg) : M KMSCSRBuilder unit :=
  match value with
  | ArgOther => raise TypeError
  | ArgNone => modify (with_extended_key_usage None)
  | ArgSet s =>
      if bool_decide (s = ∅) then modify (with_extended_key_usage None)
      else
        v ← lift (ExtKeyUsageSyntax_new ulib s);
        modify (with_extended_key_usage (Some v))
  end.

End UsageSetters.

(** ** Calls on a builder *)

(** One call of the public surface of a builder, with the remote service
    as it answers during that call. *)
Inductive Call : Type :=
| CallSubject (value : SubjectArg)
| CallKmsArn (kms : KMSClient) (value : string)
| CallHashAlgo (value : string)
| CallKmsSignatureAlgo (value : string)
| CallCa (value : option bool)
| CallSubjectAltDomains (value : option (list string))
| CallSubjectAltIps (value : option (list string))
| CallKeyUsage (value : SetArg)
| CallExtendedKeyUsage (value : SetArg)
| CallSetExtension (name : string) (value : option x509.Asn1Value)
| CallBuildWithKms (kms : KMSClient) (kms_arn : string).

(** The builder a call leaves behind, whether it returned or raised. *)
Definition after (lib : Asn1Lib) (ulib : UsageLib) (c : Call)
    (self : KMSCSRBuilder) : KMSCSRBuilder :=
  match c with
  | CallSubject value => (subject lib value self).2
  | CallKmsArn kms value => (kms_arn lib kms value self).1.2
  | CallHashAlgo value => (hash_algo value self).2
  | CallKmsSignatureAlgo value => (kms_signature_algo value self).2
  | CallCa value => (ca_setter value self).2
  | CallSubjectAltDomains value => (subject_alt_domains_setter lib value self).2
  | CallSubjectAltIps value => (subject_alt_ips_setter lib value self).2
  | CallKeyUsage value => (key_usage_setter ulib value self).2
  | CallExtendedKeyUsage value => (extended_key_usage_setter ulib value self).2
  | CallSetExtension name value => (set_extension lib name value self).2
  | CallBuildWithKms kms kms_arn => (build_with_kms lib kms kms_arn self).2
  end.

(** ** Vocabulary of the specification *)

(** The specification's ConfigurationError is what the setters raise as
    ValueError or TypeError. *)
Definition is_ConfigurationError (e : exn) : bool :=
  match e with
  | ValueError | TypeError => true
  | _ => false
  end.

(** "RSA-PSS algorithm name" and "ECDSA algorithm name". *)
Definition is_rsa_pss_name (s : string) : bool := String.prefix "RSASSA_PSS_" s.
Definition is_ecdsa_name (s : string) : bool := String.prefix "ECDSA_" s.

(** The classification as the specification words it: RSA if any RSA-PSS
    name is present, else EC if any ECDSA name is present, else no key
    type. *)
Definition spec_key_type (kms_algos : list string) : option string :=
  if existsb is_rsa_pss_name kms_algos then Some "rsa"
  else if existsb is_ecdsa_name kms_algos then Some "ecdsa"
  else None.

(** Output length in bytes of the hash functions the builder accepts. *)
Definition hash_output_bytes (hash : string) : Z :=
  if String.eqb hash "sha1" then 20
  else if String.eqb hash "sha256" then 32
  else if String.eqb hash "sha512" then 64
  else 0.

(** The full PSS parameter set for a hash: that hash, MGF1 with the same
    hash, salt as long as the hash output. *)
Definition pss_identifier (hash : string) : algos.SignatureAlgorithmId :=
  algos.SignedDigestAlgorithm "rsassa_pss"
    {| algos.hash_algorithm := {| algos.algorithm := hash |};
       algos.mask_gen_algorithm :=
         {| algos.mgf_algorithm := "mgf1";
            algos.mgf_parameters := {| algos.algorithm := hash |} |};
       algos.salt_length := hash_output_bytes hash |}.

(** The remote algorithm name a build negotiates for a key type: the
    scheme prefix, chosen by the key type and, for RSA, by whether the
    configured preference names PSS, then the last three characters of the
    hash name. *)
Definition remote_name (signature_algo : string) (self : KMSCSRBuilder)
  : string :=
  let width := Py.last3 (_hash_algo self) in
  if String.eqb signature_algo "ecdsa" then Py.fmt2 "ECDSA_SHA" width
  else if Py.str_in "PSS" (_kms_signature_algo self)
  then Py.fmt2 "RSASSA_PSS_SHA" width
  else Py.fmt2 "RSASSA_PKCS1_V1_5_SHA" width.

(** Two builders carry the same request configuration: subject, public-key
    info and extension state. *)
Definition same_request_config (a b : KMSCSRBuilder) : Prop :=
  _subject a = _subject b ∧
  _subject_public_key a = _subject_public_key b ∧
  _basic_constraints a = _basic_constraints b ∧
  _subject_alt_name a = _subject_alt_name b ∧
  _key_usage a = _key_usage b ∧
  _extended_key_usage a = _extended_key_usage b ∧
  _other_extensions a = _other_extensions b.

(** The extension identities carried by a request. *)
Definition request_extension_ids (r : csr.CertificationRequest) : list string :=
  x509.extn_id <$>
    concat (concat (csr.values <$>
                      csr.attributes (csr.certification_request_info r))).

(** The two regions of the extension set are disjoint: no special identity
    is a key of the open map. *)
Definition regions_disjoint (self : KMSCSRBuilder) : Prop :=
  ∀ name, name ∈ _special_extensions → _other_extensions self !! name = None.

(** The general names built from a list of values up to the first value
    the constructor rejects, and the exception it raised there, if any. *)
Fixpoint GeneralNames_upto (lib : Asn1Lib) (name : string)
    (values : list string) : list x509.GeneralName * option exn :=
  match values with
  | [] => ([], None)
  | value :: values' =>
      match GeneralName_new lib name value with
      | Raise e => ([], Some e)
      | Return g =>
          let '(gs, e) := GeneralNames_upto lib name values' in (g :: gs, e)
      end
  end.

(** [None] when the list is empty. *)
Definition nonempty_or_None {A} (l : list A) : option (list A) :=
  match l with [] => None | _ => Some l end.

(** The extensions carried by a request. *)
Definition request_extensions (r : csr.CertificationRequest)
  : list x509.Extension :=
  concat (concat (csr.values <$>
                    csr.attributes (csr.certification_request_info r))).

(** What every call keeps true of a builder: the hash name is one the
    setter accepts, the signing preference is a name of [valid_algos], and
    the two regions of the extension set are disjoint. *)
Definition well_formed (self : KMSCSRBuilder) : Prop :=
  _hash_algo self ∈ ["sha1"; "sha256"; "sha512"] ∧
  _kms_signature_algo self ∈ valid_algos ∧
  regions_disjoint self.

(** Two builders that differ at most in the stored key reference. *)
Definition same_but_kms_arn (a b : KMSCSRBuilder) : Prop :=
  b = with_kms_arn (_kms_arn b) (_subject_public_key a) a.

(** What [negotiate] decides, as a function of the key type, the hash name
    and whether the preference names PSS: the identifier it binds with the
    name it assigns to the preference, nothing when no branch is taken, or
    the exception of [int] or of the setter of the preference. *)
Definition negotiation (signature_algo hash : string) (pss : bool)
  : outcome (option (algos.SignatureAlgorithmId * string)) :=
  let accept id name :=
    if Py.list_in name valid_algos then Return (Some (id, name))
    else Raise ValueError in
  if Py.str_in "ecdsa" signature_algo then
    accept (algos.AlgorithmDict (Py.fmt2 hash signature_algo))
           (Py.fmt2 "ECDSA_SHA" (Py.last3 hash))
  else if Py.str_in "rsa" signature_algo then
    if pss then
      match Py.int (Py.last3 hash) with
      | None => Raise ValueError
      | Some salt =>
          accept
            (algos.SignedDigestAlgorithm "rsassa_pss"
               {| algos.hash_algorithm := {| algos.algorithm := hash |};
                  algos.mask_gen_algorithm :=
                    {| algos.mgf_algorithm := "mgf1";
                       algos.mgf_parameters := {| algos.algorithm := hash |} |};
                  algos.salt_length := salt / 8 |})
            (Py.fmt2 "RSASSA_PSS_SHA" (Py.last3 hash))
      end
    else
      accept (algos.AlgorithmDict (Py.fmt2 hash signature_algo))
             (Py.fmt2 "RSASSA_PKCS1_V1_5_SHA" (Py.last3 hash))
  else Return None.

(** ** Stand-ins for the libraries and the remote service *)

Module Stub.

(** A library instance that knows two OIDs and three non-special
    extension classes. *)
Definition lib : Asn1Lib :=
  {| ExtensionId_native := λ name,
       if String.eqb name "2.5.29.19" then Return "basic_constraints"
       else if String.eqb name "2.5.29.18" then Return "issuer_alt_name"
       else if String.eqb name "" then Raise ValueError
       else Return name;
     Extension_oid_specs := λ name,
       if String.eqb name "issuer_alt_name" then x509.CGeneralNames
       else if String.eqb name "tls_feature" then x509.COther "Features"
       else x509.COther "ParsableOctetString";
     GeneralName_native := λ name value,
       if String.eqb value "" then Raise ValueError else Return value;
     Name_build := λ d, Return d;
     load_public_key := λ raw,
       match raw with [] => Raise ValueError | _ => Return raw end;
     dump := λ info,
       list_byte_of_string
         (String.concat ","
            (csr.version info ::
             ((fst <$> csr.subject info) ++
              (x509.extn_id <$>
                 concat (concat (csr.values <$> csr.attributes info))))%list))
  |}.

Definition rsa_algos : list string :=
  [ "RSASSA_PKCS1_V1_5_SHA_256"; "RSASSA_PKCS1_V1_5_SHA_384";
    "RSASSA_PKCS1_V1_5_SHA_512";
    "RSASSA_PSS_SHA_256"; "RSASSA_PSS_SHA_384"; "RSASSA_PSS_SHA_512" ].

Definition client (usage : string) (kms_algos : list string) (sig : bytes)
  : KMSClient :=
  {| get_public_key := λ arn,
       if String.eqb arn "arn:unknown" then Raise ClientError
       else Return {| KeyUsage := usage; PublicKey := [x30; x82] |};
     describe_key := λ arn,
       if String.eqb arn "arn:unknown" then Raise ClientError
       else Return kms_algos;
     sign := λ arn algo message,
       if Py.list_in algo kms_algos then Return sig else Raise ClientError |}.

(** An RSA key, a P-256 key, a P-384 key and an encryption key. *)
Definition kms_rsa : KMSClient := client "SIGN_VERIFY" rsa_algos [x01; x02].
Definition kms_rsa' : KMSClient := client "SIGN_VERIFY" rsa_algos [x03].
Definition kms_p256 : KMSClient :=
  client "SIGN_VERIFY" ["ECDSA_SHA_256"] [x04].
Definition kms_p384 : KMSClient :=
  client "SIGN_VERIFY" ["ECDSA_SHA_384"] [x05].
Definition kms_encrypt : KMSClient := client "ENCRYPT_DECRYPT" [] [].

(** A remote key that reports every ECDSA name. *)
Definition kms_ecdsa : KMSClient :=
  client "SIGN_VERIFY" ["ECDSA_SHA_256"; "ECDSA_SHA_384"; "ECDSA_SHA_512"]
         [x06].

(** The builder as [__init__] leaves it for subject {common_name: x}. *)
Definition fresh : KMSCSRBuilder :=
  {| _subject := [("common_name", "x")];
     _kms_arn := "arn:key";
     _subject_public_key := [x30; x82];
     _hash_algo := "sha256";
     _basic_constraints :=
       Some {| x509.ca := false; x509.path_len_constraint := None |};
     _subject_alt_name := None;
     _key_usage := Some {[ "digital_signature"; "key_encipherment" ]};
     _extended_key_usage := Some ["server_auth"; "client_auth"];
     _other_extensions := ∅;
     _kms_signature_algo := "RSASSA_PSS_SHA_256" |}.

(** A builder with entries in both regions of the extension set. *)
Definition busy : KMSCSRBuilder :=
  with_subject_alt_name
    (Some [ {| x509.name := "dns_name"; x509.native := "a.example" |};
            {| x509.name := "ip_address"; x509.native := "10.0.0.1" |} ])
    (with_other_extensions
       (<["tls_feature" := x509.VOther "Features" [x05]]>
          (<["issuer_alt_name" := x509.VGeneralNames []]> ∅))
       fresh).

(** Fresh builders after [hash_algo = 'sha1'], after
    [hash_algo = 'sha512'], and after
    [kms_signature_algo = 'RSASSA_PKCS1_V1_5_SHA_256']. *)
Definition fresh_sha1 : KMSCSRBuilder := with_hash_algo "sha1" fresh.
Definition fresh_sha512 : KMSCSRBuilder := with_hash_algo "sha512" fresh.
Definition fresh_pkcs1 : KMSCSRBuilder :=
  with_kms_signature_algo "RSASSA_PKCS1_V1_5_SHA_256" fresh.

(** Constructors that refuse the name "bogus" and keep any other set. *)
Definition ulib : UsageLib :=
  {| KeyUsage_new := λ s,
       if bool_decide ("bogus" ∈ s) then Raise ValueError else Return s;
     ExtKeyUsageSyntax_new := λ s,
       if bool_decide ("bogus" ∈ s) then Raise ValueError
       else Return (Py.sorted (elements s)) |}.

End Stub.

(** ** Running the monad *)

Ltac run :=
  unfold mbind, M_bind, mret, M_ret, bind, ret, raise, modify, get, lift,
    of_option in *;
  cbv beta in *.

(** A decidable closed proposition, by evaluation of its decision. *)
Ltac decide_by_computation :=
  match goal with
  | |- ?P => apply (bool_decide_unpack P); by vm_compute
  end.

(** ** Facts about the Python built-ins *)

Definition str_le (a b : string) : Prop := String.leb a b = true.

Lemma insert_sorted_perm x l : Py.insert_sorted x l ≡ₚ x :: l.
Proof.
  induction l as [|y l IH]; simpl; [done|].
  destruct (String.leb x y); [done|].
  rewrite IH. apply perm_swap.
Qed.

Lemma sorted_perm l : Py.sorted l ≡ₚ l.
Proof.
  induction l as [|x l IH]; [done|].
  change (Py.sorted (x :: l)) with (Py.insert_sorted x (Py.sorted l)).
  by rewrite insert_sorted_perm, IH.
Qed.

Lemma insert_sorted_HdRel a x l :
  str_le a x → HdRel str_le a l → HdRel str_le a (Py.insert_sorted x l).
Proof.
  intros Hax Hal. destruct l as [|y l]; simpl.
  - by constructor.
  - inversion_clear Hal. destruct (String.leb x y); by constructor.
Qed.

Lemma insert_sorted_Sorted x l :
  Sorted str_le l → Sorted str_le (Py.insert_sorted x l).
Proof.
  induction 1 as [|y l Hs IH Hhd]; simpl.
  - repeat constructor.
  - destruct (String.leb x y) eqn:Hxy.
    + constructor; [by constructor | by constructor].
    + constructor; [done|].
      apply insert_sorted_HdRel; [|done].
      destruct (String.leb_total x y) as [H|H]; [congruence | done].
Qed.

Lemma sorted_Sorted l : Sorted str_le (Py.sorted l).
Proof.
  induction l as [|x l IH]; [constructor|].
  change (Py.sorted (x :: l)) with (Py.insert_sorted x (Py.sorted l)).
  by apply insert_sorted_Sorted.
Qed.

Lemma elem_of_sorted x l : x ∈ Py.sorted l ↔ x ∈ l.
Proof. by rewrite (sorted_perm l). Qed.

Lemma sorted_special_extensions :
  Py.sorted (elements _special_extensions) =
  ["basic_constraints"; "extended_key_usage"; "key_usage"; "subject_alt_name"].
Proof. by vm_compute. Qed.

Lemma elem_of_special name :
  name ∈ _special_extensions ↔
  name = "basic_constraints" ∨ name = "subject_alt_name" ∨
  name = "key_usage" ∨ name = "extended_key_usage".
Proof.
  unfold _special_extensions.
  rewrite !elem_of_union, !elem_of_singleton. tauto.
Qed.

(** ** Criticality *)

Lemma critical_table_unknown name :
  name ∉ ["subject_directory_attributes"; "key_usage"; "issuer_alt_name";
          "name_constraints"; "certificate_policies"; "policy_mappings";
          "policy_constraints"; "extended_key_usage"; "inhibit_any_policy";
          "subject_information_access"; "tls_feature"; "ocsp_no_check"] →
  critical_table !! name = None.
Proof.
  intros H. unfold critical_table. by apply not_elem_of_list_to_map_1.
Qed.

(** C4: [_determine_critical] is a lookup that does not touch the builder:
    subject_alt_name is critical iff the subject is empty, basic_constraints
    iff [ca] reads true; key_usage, name_constraints, policy_mappings,
    policy_constraints and inhibit_any_policy are critical;
    issuer_alt_name, certificate_policies, extended_key_usage,
    subject_information_access, tls_feature and ocsp_no_check are not; and
    every other identity, subject_directory_attributes and the identities
    the table does not list alike, is not critical either. *)
Theorem determine_critical_table (self : KMSCSRBuilder) :
  (_determine_critical "subject_alt_name" self = true ↔ _subject self = []) ∧
  (_determine_critical "basic_constraints" self = true ↔ ca self = Some true) ∧
  Forall (λ name, _determine_critical name self = true)
    ["key_usage"; "name_constraints"; "policy_mappings";
     "policy_constraints"; "inhibit_any_policy"] ∧
  Forall (λ name, _determine_critical name self = false)
    ["issuer_alt_name"; "certificate_policies"; "extended_key_usage";
     "subject_information_access"; "tls_feature"; "ocsp_no_check"] ∧
  (∀ name,
     name ∉ ["subject_alt_name"; "basic_constraints"; "key_usage";
             "name_constraints"; "policy_mappings"; "policy_constraints";
             "inhibit_any_policy"] →
     _determine_critical name self = false).
Proof.
  split; [|split; [|split; [|split]]].
  - unfold _determine_critical; simpl. rewrite bool_decide_eq_true.
    by destruct (_subject self).
  - unfold _determine_critical; simpl. by rewrite bool_decide_eq_true.
  - repeat constructor.
  - repeat constructor.
  - intros name Hname. unfold _determine_critical.
    destruct (String.eqb_spec name "subject_alt_name") as [->|_].
    { exfalso. apply Hname. repeat constructor. }
    destruct (String.eqb_spec name "basic_constraints") as [->|_].
    { exfalso. apply Hname. repeat constructor. }
    destruct (decide (name ∈
      ["subject_directory_attributes"; "key_usage"; "issuer_alt_name";
       "name_constraints"; "certificate_policies"; "policy_mappings";
       "policy_constraints"; "extended_key_usage"; "inhibit_any_policy";
       "subject_information_access"; "tls_feature"; "ocsp_no_check"]))
      as [Hin|Hnotin]; [|by rewrite critical_table_unknown].
    repeat (apply elem_of_cons in Hin as [-> | Hin];
            [first [ by vm_compute
                   | exfalso; apply Hname; decide_by_computation ]|]).
    by apply elem_of_nil in Hin.
Qed.

Lemma bind_run {S A B} (m : M S A) (k : A → M S B) (s : S) :
  (m ≫= k) s =
  match m s with
  | (Return a, s') => k a s'
  | (Raise e, s') => (Raise e, s')
  end.
Proof. reflexivity. Qed.

Lemma kms_signature_algo_run value self :
  kms_signature_algo value self =
  if Py.list_in value valid_algos
  then (Return tt, with_kms_signature_algo value self)
  else (Raise ValueError, self).
Proof. unfold kms_signature_algo. by destruct (Py.list_in _ _). Qed.

(** ** The extension list of a build *)

Section Extensions.

Context (lib : Asn1Lib).

Lemma omap_lookup_ids (self : KMSCSRBuilder) (m : gmap string x509.Asn1Value)
    (l : list string) :
  (∀ name, name ∈ l → is_Some (m !! name)) →
  x509.extn_id <$>
    omap (λ name, _make_extension self name <$> (m !! name)) l = l.
Proof.
  induction l as [|name l IH]; intros Hl; [done|].
  destruct (Hl name) as [v Hv]; [constructor|].
  simpl. rewrite Hv. simpl. f_equal.
  apply IH. intros n Hn. apply Hl. by constructor.
Qed.

(** The identities of the assembled list: the special ones that are set,
    in sorted order, then the keys of the open map, sorted. *)
Lemma extensions_ids (self : KMSCSRBuilder) :
  x509.extn_id <$> extensions self =
  (filter (λ name, is_Some (getattr_special name self))
     ["basic_constraints"; "extended_key_usage"; "key_usage";
      "subject_alt_name"]
   ++ Py.sorted (elements (dom (_other_extensions self))))%list.
Proof.
  unfold extensions. rewrite fmap_app. f_equal.
  - rewrite sorted_special_extensions.
    destruct self as [? ? ? ? bc san ku eku ? ?].
    by destruct bc, san, ku, eku.
  - apply omap_lookup_ids. intros name.
    rewrite elem_of_sorted, elem_of_elements. apply elem_of_dom.
Qed.

Lemma info_extension_ids (self : KMSCSRBuilder) :
  x509.extn_id <$>
    concat (concat (csr.values <$>
              csr.attributes (certification_request_info self)))
  = x509.extn_id <$> extensions self.
Proof.
  unfold certification_request_info. simpl.
  destruct (extensions self); simpl; [done|].
  by rewrite !app_nil_r.
Qed.

(** A special identity appears in the list only when its field is set. *)
Lemma special_id_in_extensions (self : KMSCSRBuilder) (name : string) :
  regions_disjoint self →
  name ∈ _special_extensions →
  name ∈ x509.extn_id <$> extensions self →
  is_Some (getattr_special name self).
Proof.
  intros Hdisj Hsp. rewrite extensions_ids, elem_of_app.
  intros [Hin|Hin].
  - by apply list_elem_of_filter in Hin as [? _].
  - apply elem_of_sorted, elem_of_elements, elem_of_dom in Hin.
    rewrite (Hdisj name Hsp) in Hin. by destruct Hin.
Qed.

(** What the request depends on is untouched by the signing preference. *)
Lemma certification_request_info_frame (value : string) (self : KMSCSRBuilder) :
  certification_request_info (with_kms_signature_algo value self) =
  certification_request_info self.
Proof. reflexivity. Qed.

(** [negotiate] either leaves the builder alone, binding no identifier or
    raising, or binds an identifier and replaces exactly the signing
    preference, by a name the setter accepts. *)
Lemma negotiate_frame (signature_algo : string) (self self' : KMSCSRBuilder)
    (o : outcome (option algos.SignatureAlgorithmId)) :
  negotiate signature_algo self = (o, self') →
  (self' = self ∧ (o = Return None ∨ ∃ e, o = Raise e)) ∨
  (∃ value id, Py.list_in value valid_algos = true ∧
               self' = with_kms_signature_algo value self ∧
               o = Return (Some id)).
Proof.
  assert (Hset : ∀ value id,
    (let (o0, s') := kms_signature_algo value self in
     match o0 with
     | Return _ => (Return (Some id), s')
     | Raise e => (Raise e, s')
     end) = (o, self') →
    (self' = self ∧ (o = Return None ∨ ∃ e, o = Raise e)) ∨
    (∃ value id, Py.list_in value valid_algos = true ∧
                 self' = with_kms_signature_algo value self ∧
                 o = Return (Some id))).
  { intros value id. rewrite kms_signature_algo_run.
    destruct (Py.list_in value valid_algos) eqn:Hv; intros [= <- <-].
    - right. by exists value, id.
    - left. split; [done|]. right. by exists ValueError. }
  unfold negotiate. run.
  destruct (Py.str_in "ecdsa" signature_algo); [apply Hset|].
  destruct (Py.str_in "rsa" signature_algo).
  - destruct (Py.str_in "PSS" _); [|apply Hset].
    destruct (Py.int _); [apply Hset|].
    intros [= <- <-]. left. split; [done|]. right. by exists ValueError.
  - intros [= <- <-]. left. split; [done|]. by left.
Qed.

(** A build that returns went through every step. *)
Lemma build_with_kms_inv (kms : KMSClient) (arn : string)
    (self self' : KMSCSRBuilder) (r : csr.CertificationRequest) :
  build_with_kms lib kms arn self = (Return r, self') →
  ∃ kms_algos signature_algo,
    describe_key kms arn = Return kms_algos ∧
    select_key_type kms_algos = Some signature_algo ∧
    negotiate signature_algo self =
      (Return (Some (csr.signature_algorithm r)), self') ∧
    csr.certification_request_info r = certification_request_info self' ∧
    sign kms arn (_kms_signature_algo self')
         (dump lib (certification_request_info self'))
      = Return (csr.signature r).
Proof.
  unfold build_with_kms, sign_request. run.
  destruct (describe_key kms arn) as [kms_algos|] eqn:Hd; [|done].
  destruct (select_key_type kms_algos) as [sa|] eqn:Hs; [|done].
  destruct (negotiate sa self) as [[[id|]|] s1] eqn:Hn; try done.
  - destruct (sign kms arn _ _) as [sig|] eqn:Hsig; [|done].
    intros [= <- <-]. exists kms_algos, sa. by rewrite Hn.
  - by destruct (sign kms arn _ _).
Qed.

End Extensions.

(** ** Frame of a build *)

Section Build.

Context (lib : Asn1Lib).

Lemma select_key_type_cases (kms_algos : list string) (signature_algo : string) :
  select_key_type kms_algos = Some signature_algo →
  signature_algo = "rsa" ∨ signature_algo = "ecdsa".
Proof.
  unfold select_key_type.
  destruct (Py.list_in "RSASSA_PSS_SHA_256" kms_algos); [naive_solver|].
  destruct (Py.list_in "ECDSA_SHA_256" kms_algos); naive_solver.
Qed.

(** When [negotiate] binds an identifier for one of the two key types, the
    builder it leaves differs from the one it found by the preference only,
    which is the remote name. *)
Lemma negotiate_remote_name (signature_algo : string)
    (self self' : KMSCSRBuilder) (id : algos.SignatureAlgorithmId) :
  signature_algo = "rsa" ∨ signature_algo = "ecdsa" →
  negotiate signature_algo self = (Return (Some id), self') →
  self' = with_kms_signature_algo (remote_name signature_algo self) self.
Proof.
  intros [-> | ->]; unfold negotiate, remote_name; run.
  - change (Py.str_in "ecdsa" "rsa") with false.
    change (Py.str_in "rsa" "rsa") with true.
    change (String.eqb "rsa" "ecdsa") with false. cbv beta iota.
    destruct (Py.str_in "PSS" _).
    + destruct (Py.int _); [|done].
      rewrite kms_signature_algo_run.
      destruct (Py.list_in _ valid_algos); [|done]. by intros [= <- <-].
    + rewrite kms_signature_algo_run.
      destruct (Py.list_in _ valid_algos); [|done]. by intros [= <- <-].
  - change (Py.str_in "ecdsa" "ecdsa") with true.
    change (String.eqb "ecdsa" "ecdsa") with true. cbv beta iota.
    rewrite kms_signature_algo_run.
    destruct (Py.list_in _ valid_algos); [|done]. by intros [= <- <-].
Qed.

(** A build that returns leaves the builder with the preference replaced
    by the remote name and signs the request info of the builder it found. *)
Lemma build_with_kms_returns (kms : KMSClient) (arn : string)
    (self self' : KMSCSRBuilder) (r : csr.CertificationRequest) :
  build_with_kms lib kms arn self = (Return r, self') →
  ∃ kms_algos signature_algo,
    describe_key kms arn = Return kms_algos ∧
    select_key_type kms_algos = Some signature_algo ∧
    self' = with_kms_signature_algo (remote_name signature_algo self) self ∧
    csr.certification_request_info r = certification_request_info self ∧
    sign kms arn (remote_name signature_algo self)
         (dump lib (certification_request_info self))
      = Return (csr.signature r).
Proof.
  intros (kms_algos & sa & Hd & Hs & Hn & Hinfo & Hsig)%build_with_kms_inv.
  exists kms_algos, sa.
  pose proof (select_key_type_cases _ _ Hs) as Hsa.
  pose proof (negotiate_remote_name _ _ _ _ Hsa Hn) as ->.
  done.
Qed.

Lemma build_request_ids (kms : KMSClient) (arn : string)
    (self self' : KMSCSRBuilder) (r : csr.CertificationRequest) :
  build_with_kms lib kms arn self = (Return r, self') →
  request_extension_ids r = x509.extn_id <$> extensions self.
Proof.
  intros (? & ? & _ & _ & _ & Hinfo & _)%build_with_kms_returns.
  unfold request_extension_ids. rewrite Hinfo. apply info_extension_ids.
Qed.

(** A special identity whose field is unset is not in a built request. *)
Lemma build_omits_unset_special (kms : KMSClient) (arn : string)
    (self self' : KMSCSRBuilder) (r : csr.CertificationRequest)
    (name : string) :
  regions_disjoint self →
  name ∈ _special_extensions →
  getattr_special name self = None →
  build_with_kms lib kms arn self = (Return r, self') →
  name ∉ request_extension_ids r.
Proof.
  intros Hdisj Hsp Hnone Hb Hin.
  rewrite (build_request_ids _ _ _ _ _ Hb) in Hin.
  apply special_id_in_extensions in Hin; [|done..].
  rewrite Hnone in Hin. by destruct Hin.
Qed.

Lemma same_request_config_info (a b : KMSCSRBuilder) :
  same_request_config a b →
  certification_request_info a = certification_request_info b.
Proof.
  destruct a, b. unfold same_request_config. simpl.
  intros (-> & -> & -> & -> & -> & -> & ->). reflexivity.
Qed.

(** C9: a build that returns overwrites [_kms_signature_algo] with the
    negotiated remote name, which is derived from the hash name and the key
    type found for the remote key (and, for RSA, from whether the old
    preference named PSS), and leaves every other field of the builder as
    it was. *)
Theorem build_overwrites_signing_preference (kms : KMSClient) (arn : string)
    (self self' : KMSCSRBuilder) (r : csr.CertificationRequest) :
  build_with_kms lib kms arn self = (Return r, self') →
  (∃ kms_algos signature_algo,
     describe_key kms arn = Return kms_algos ∧
     select_key_type kms_algos = Some signature_algo ∧
     _kms_signature_algo self' = remote_name signature_algo self) ∧
  _subject self' = _subject self ∧
  _kms_arn self' = _kms_arn self ∧
  _subject_public_key self' = _subject_public_key self ∧
  _hash_algo self' = _hash_algo self ∧
  _basic_constraints self' = _basic_constraints self ∧
  _subject_alt_name self' = _subject_alt_name self ∧
  _key_usage self' = _key_usage self ∧
  _extended_key_usage self' = _extended_key_usage self ∧
  _other_extensions self' = _other_extensions self.
Proof.
  intros (kms_algos & sa & Hd & Hs & -> & _)%build_with_kms_returns.
  split; [|done]. by exists kms_algos, sa.
Qed.

(** C3: the to-be-signed bytes are a function of the request configuration
    alone.  Two builds that return, on builders with the same subject,
    public-key info and extension state, whatever the remote service
    answers, sign the same bytes; the extension request lists the special
    identities that are set, in sorted order, and then the keys of the open
    map, sorted. *)
Theorem build_to_be_signed_deterministic (kms1 kms2 : KMSClient)
    (arn1 arn2 : string) (a a' b b' : KMSCSRBuilder)
    (r1 r2 : csr.CertificationRequest) :
  same_request_config a b →
  build_with_kms lib kms1 arn1 a = (Return r1, a') →
  build_with_kms lib kms2 arn2 b = (Return r2, b') →
  dump lib (csr.certification_request_info r1)
    = dump lib (csr.certification_request_info r2) ∧
  same_request_config a a' ∧
  request_extension_ids r1 =
    (filter (λ name, is_Some (getattr_special name a))
       ["basic_constraints"; "extended_key_usage"; "key_usage";
        "subject_alt_name"]
     ++ Py.sorted (elements (dom (_other_extensions a))))%list ∧
  Sorted str_le ["basic_constraints"; "extended_key_usage"; "key_usage";
                 "subject_alt_name"] ∧
  Sorted str_le (Py.sorted (elements (dom (_other_extensions a)))) ∧
  Py.sorted (elements (dom (_other_extensions a)))
    ≡ₚ elements (dom (_other_extensions a)).
Proof.
  intros Hcfg Ha Hb.
  pose proof (build_request_ids _ _ _ _ _ Ha) as Hids.
  apply build_with_kms_returns in Ha as (? & ? & _ & _ & -> & Ha & _).
  apply build_with_kms_returns in Hb as (? & ? & _ & _ & _ & Hb & _).
  split; [|split; [|split; [|split; [|split]]]].
  - rewrite Ha, Hb. f_equal. by apply same_request_config_info.
  - by repeat split.
  - rewrite Hids. apply extensions_ids.
  - repeat constructor.
  - apply sorted_Sorted.
  - apply sorted_perm.
Qed.

End Build.

(** With the default preference and a P-256 key, a build on a fresh builder
    returns and leaves the preference ECDSA_SHA_256: the configured
    RSASSA_PSS_SHA_256 is gone. *)
Lemma build_overwrites_signing_preference_witness :
  ∃ r self',
    build_with_kms Stub.lib Stub.kms_p256 "arn:key" Stub.fresh
      = (Return r, self') ∧
    _kms_signature_algo Stub.fresh = "RSASSA_PSS_SHA_256" ∧
    _kms_signature_algo self' = "ECDSA_SHA_256" ∧
    _hash_algo self' = "sha256" ∧
    _other_extensions self' = ∅.
Proof.
  destruct (build_with_kms Stub.lib Stub.kms_p256 "arn:key" Stub.fresh)
    as [[r|e] self'] eqn:H; [|vm_compute in H; discriminate].
  exists r, self'. split; [reflexivity|]. split; [reflexivity|].
  destruct (build_overwrites_signing_preference Stub.lib _ _ _ _ _ H)
    as ((kms_algos & sa & Hd & Hs & Hname) & _ & _ & _ & Hh & _ & _ & _ & _ & Ho).
  vm_compute in Hd. injection Hd as <-.
  vm_compute in Hs. injection Hs as <-.
  rewrite Hname, Hh, Ho. by vm_compute.
Defined.

(** Two builds in a row on a builder with extensions in both regions, the
    second against a service that answers with another signature, sign the
    same bytes. *)
Lemma build_to_be_signed_deterministic_witness :
  ∃ r1 a' r2 b',
    build_with_kms Stub.lib Stub.kms_rsa "arn:key" Stub.busy = (Return r1, a') ∧
    build_with_kms Stub.lib Stub.kms_rsa' "arn:key" a' = (Return r2, b') ∧
    dump Stub.lib (csr.certification_request_info r1)
      = dump Stub.lib (csr.certification_request_info r2) ∧
    request_extension_ids r1 =
      ["basic_constraints"; "extended_key_usage"; "key_usage";
       "subject_alt_name"; "issuer_alt_name"; "tls_feature"].
Proof.
  destruct (build_with_kms Stub.lib Stub.kms_rsa "arn:key" Stub.busy)
    as [[r1|e] a'] eqn:H1; [|vm_compute in H1; discriminate].
  assert (Ha' : a' = with_kms_signature_algo "RSASSA_PSS_SHA_256" Stub.busy).
  { vm_compute in H1. by injection H1 as _ <-. }
  destruct (build_with_kms Stub.lib Stub.kms_rsa' "arn:key" a')
    as [[r2|e] b'] eqn:H2; [|rewrite Ha' in H2; vm_compute in H2; discriminate].
  exists r1, a', r2, b'. split; [reflexivity|]. split; [exact H2|].
  assert (Hcfg : same_request_config Stub.busy a') by (by rewrite Ha').
  destruct (build_to_be_signed_deterministic Stub.lib _ _ _ _ _ _ _ _ _ _
              Hcfg H1 H2) as (Hdump & _ & Hids & _).
  split; [exact Hdump|]. rewrite Hids. by vm_compute.
Defined.

(** ** Subject alternative names *)

Section SubjectAlt.

Context (lib : Asn1Lib).

Lemma GeneralNames_upto_names (name : string) (values : list string) :
  Forall (λ g, x509.name g = name) (GeneralNames_upto lib name values).1.
Proof.
  induction values as [|v vs IH]; simpl; [constructor|].
  unfold GeneralName_new.
  destruct (GeneralName_native lib name v); simpl; [|constructor].
  destruct (GeneralNames_upto lib name vs); simpl in *. by constructor.
Qed.

Lemma GeneralNames_upto_total (name : string) (values : list string) :
  Forall (λ v, ∃ n, GeneralName_native lib name v = Return n) values →
  (GeneralNames_upto lib name values).2 = None.
Proof.
  induction 1 as [|v vs [n Hn] _ IH]; simpl; [done|].
  unfold GeneralName_new. rewrite Hn.
  by destruct (GeneralNames_upto lib name vs).
Qed.

(** The loop of [_set_subject_alt] appends the names built, in order, and
    stops at the first exception. *)
Lemma for_each_append (name : string) (values : list string)
    (l : list x509.GeneralName) (self : KMSCSRBuilder) :
  for_each values (λ value,
      new_general_name ← lift (GeneralName_new lib name value);
      modify (λ self, with_subject_alt_name
                ((λ l, (l ++ [new_general_name])%list) <$> _subject_alt_name self)
                self))
    (with_subject_alt_name (Some l) self)
  = let '(gs, e) := GeneralNames_upto lib name values in
    (match e with None => Return tt | Some e => Raise e end,
     with_subject_alt_name (Some (l ++ gs)%list) self).
Proof.
  revert l. induction values as [|v vs IH]; intros l.
  - cbn. by rewrite app_nil_r.
  - cbn [for_each GeneralNames_upto]. run.
    destruct (GeneralName_new lib name v) as [g|e].
    + change (with_subject_alt_name _ (with_subject_alt_name (Some l) self))
        with (with_subject_alt_name (Some (l ++ [g])%list) self).
      rewrite IH. destruct (GeneralNames_upto lib name vs) as [gs e].
      by rewrite <- app_assoc.
    + by rewrite app_nil_r.
Qed.

(** The setter as one step: the entries of the other kinds are kept, the
    names built are appended, and only a setter that returns turns an
    empty list into None. *)
Lemma _set_subject_alt_run (name : string) (values : option (list string))
    (self : KMSCSRBuilder) :
  _set_subject_alt lib name values self =
  let kept := filter (λ g, x509.name g ≠ name)
                     (default [] (_subject_alt_name self)) in
  let '(gs, e) := match values with
                  | Some values => GeneralNames_upto lib name values
                  | None => ([], None)
                  end in
  match e with
  | Some e => (Raise e, with_subject_alt_name (Some (kept ++ gs)%list) self)
  | None =>
      (Return tt, with_subject_alt_name (nonempty_or_None (kept ++ gs)%list) self)
  end.
Proof.
  assert (Hlast : ∀ l : list x509.GeneralName,
    (if bool_decide (length (default [] (Some l)) = 0%nat)
     then modify (with_subject_alt_name None)
     else ret tt) (with_subject_alt_name (Some l) self)
    = (Return tt, with_subject_alt_name (nonempty_or_None l) self)).
  { by intros [|g l]. }
  assert (Hstart :
    (match _subject_alt_name self with
     | Some general_names =>
         modify (with_subject_alt_name
           (Some (filter (λ general_name, x509.name general_name ≠ name)
                         general_names)))
     | None => modify (with_subject_alt_name (Some []))
     end) self
    = (Return tt,
       with_subject_alt_name
         (Some (filter (λ g, x509.name g ≠ name)
                       (default [] (_subject_alt_name self)))) self)).
  { by destruct (_subject_alt_name self). }
  unfold _set_subject_alt. rewrite bind_run. unfold get at 1. cbv beta iota.
  rewrite bind_run, Hstart. cbv beta iota zeta. rewrite bind_run.
  destruct values as [vs|].
  - rewrite for_each_append.
    destruct (GeneralNames_upto lib name vs) as [gs [e|]]; [done|].
    rewrite bind_run. unfold get. cbv beta iota. apply Hlast.
  - unfold mret, M_ret, ret. cbv beta iota.
    rewrite bind_run. unfold get. cbv beta iota.
    rewrite app_nil_r. apply Hlast.
Qed.

Lemma default_nonempty_or_None {A} (l : list A) :
  default [] (nonempty_or_None l) = l.
Proof. by destruct l. Qed.

(** The entries of a setter's result: those of the other kinds, then the
    names built. *)
Lemma _set_subject_alt_entries (name : string) (values : option (list string))
    (self : KMSCSRBuilder) :
  default [] (_subject_alt_name (_set_subject_alt lib name values self).2) =
  (filter (λ g, x509.name g ≠ name) (default [] (_subject_alt_name self))
   ++ match values with
      | Some values => (GeneralNames_upto lib name values).1
      | None => []
      end)%list.
Proof.
  rewrite _set_subject_alt_run. cbv zeta.
  destruct values as [vs|].
  - destruct (GeneralNames_upto lib name vs) as [gs [e|]]; [done|].
    apply default_nonempty_or_None.
  - apply default_nonempty_or_None.
Qed.

Lemma _set_subject_alt_fields (name : string) (values : option (list string))
    (self : KMSCSRBuilder) :
  ∃ san, (_set_subject_alt lib name values self).2
         = with_subject_alt_name san self.
Proof.
  rewrite _set_subject_alt_run. cbv zeta.
  destruct values as [vs|]; [destruct (GeneralNames_upto lib name vs) as [gs [e|]]|];
    eauto.
Qed.

Lemma _get_subject_alt_entries (kind : string) (self : KMSCSRBuilder) :
  _get_subject_alt kind self =
  x509.native <$>
    filter (λ g, x509.name g = kind) (default [] (_subject_alt_name self)).
Proof. unfold _get_subject_alt. by destruct (_subject_alt_name self). Qed.

(** Setting one kind keeps the entries of every other kind, whatever the
    outcome. *)
Lemma _set_subject_alt_other_kind (name kind : string)
    (values : option (list string)) (self : KMSCSRBuilder) :
  kind ≠ name →
  filter (λ g, x509.name g = kind)
    (default [] (_subject_alt_name (_set_subject_alt lib name values self).2))
  = filter (λ g, x509.name g = kind) (default [] (_subject_alt_name self)).
Proof.
  intros Hkind. rewrite _set_subject_alt_entries, filter_app.
  rewrite list_filter_filter.
  assert (Hnew : filter (λ g, x509.name g = kind)
            match values with
            | Some values => (GeneralNames_upto lib name values).1
            | None => []
            end = []).
  { destruct values as [vs|]; [|done].
    pose proof (GeneralNames_upto_names name vs) as Hall.
    induction Hall as [|g gs Hg _ IH]; [done|].
    rewrite filter_cons. destruct (decide (x509.name g = kind)); [congruence|done]. }
  rewrite Hnew, app_nil_r.
  apply list_filter_iff. intros g.
  split; [by intros [? _] | intros Hg; split; [done | congruence]].
Qed.

(** A setter that returns leaves exactly the names built as the entries
    of its kind. *)
Lemma _set_subject_alt_same_kind (name : string)
    (values : option (list string)) (self : KMSCSRBuilder) :
  filter (λ g, x509.name g = name)
    (default [] (_subject_alt_name (_set_subject_alt lib name values self).2))
  = match values with
    | Some values => (GeneralNames_upto lib name values).1
    | None => []
    end.
Proof.
  rewrite _set_subject_alt_entries, filter_app, list_filter_filter.
  assert (Hold : filter (λ g, x509.name g = name ∧ x509.name g ≠ name)
                   (default [] (_subject_alt_name self)) = []).
  { induction (default [] (_subject_alt_name self)) as [|g l IH]; [done|].
    rewrite filter_cons. destruct (decide _) as [[]|]; done. }
  rewrite Hold. cbn [app].
  destruct values as [vs|]; [|done].
  pose proof (GeneralNames_upto_names name vs) as Hall.
  induction Hall as [|g gs Hg _ IH]; [done|].
  rewrite filter_cons. destruct (decide _); [by f_equal|done].
Qed.

End SubjectAlt.

(** ** The two regions stay disjoint *)

Section Regions.

Context (lib : Asn1Lib).

Lemma regions_disjoint_frame (a b : KMSCSRBuilder) :
  _other_extensions b = _other_extensions a →
  regions_disjoint a → regions_disjoint b.
Proof. unfold regions_disjoint. by intros ->. Qed.

Lemma init_regions_disjoint (kms : KMSClient) (subject : SubjectArg)
    (arn : string) (self : KMSCSRBuilder) (printed : list string) :
  __init__ lib kms subject arn = (Return self, printed) →
  regions_disjoint self.
Proof.
  unfold __init__.
  destruct (subject_value lib subject); [|done].
  destruct (kms_arn_lookup lib kms arn) as [[pk|] out]; [|done].
  intros [= <- _] name _. apply lookup_empty.
Qed.

Lemma hash_algo_run (value : string) (self : KMSCSRBuilder) :
  hash_algo value self =
  if Py.list_in value ["sha1"; "sha256"; "sha512"]
  then (Return tt, with_hash_algo value self)
  else (Raise ValueError, self).
Proof. unfold hash_algo. by destruct (Py.list_in _ _). Qed.

(** The setters of subject, key reference, hash and preference do not
    touch the extension state. *)
Lemma plain_setters_regions_disjoint (kms : KMSClient) (v : SubjectArg)
    (arn hash algo : string) (self : KMSCSRBuilder) :
  regions_disjoint self →
  regions_disjoint (subject lib v self).2 ∧
  regions_disjoint (kms_arn lib kms arn self).1.2 ∧
  regions_disjoint (hash_algo hash self).2 ∧
  regions_disjoint (kms_signature_algo algo self).2.
Proof.
  intros Hdisj. repeat split; revert Hdisj; apply regions_disjoint_frame.
  - unfold subject. rewrite bind_run. unfold lift.
    by destruct (subject_value lib v).
  - unfold kms_arn. by destruct (kms_arn_lookup lib kms arn) as [[pk|e] out].
  - rewrite hash_algo_run. by destruct (Py.list_in _ _).
  - rewrite kms_signature_algo_run. by destruct (Py.list_in _ _).
Qed.

Lemma ca_setter_run (value : option bool) (self : KMSCSRBuilder) :
  ca_setter value self =
  (Return tt,
   match value with
   | None => with_basic_constraints None self
   | Some true =>
       with_extended_key_usage (Some ["ocsp_signing"])
         (with_key_usage (Some {[ "key_cert_sign"; "crl_sign" ]})
            (with_basic_constraints
               (Some {| x509.ca := true; x509.path_len_constraint := None |})
               self))
   | Some false =>
       with_extended_key_usage (Some ["server_auth"; "client_auth"])
         (with_key_usage (Some {[ "digital_signature"; "key_encipherment" ]})
            (with_basic_constraints
               (Some {| x509.ca := false; x509.path_len_constraint := None |})
               self))
   end).
Proof. by destruct value as [[]|]. Qed.

Lemma ca_setter_regions_disjoint (value : option bool) (self : KMSCSRBuilder) :
  regions_disjoint self → regions_disjoint (ca_setter value self).2.
Proof.
  apply regions_disjoint_frame. rewrite ca_setter_run.
  by destruct value as [[]|].
Qed.

Lemma _set_subject_alt_regions_disjoint (name : string)
    (values : option (list string)) (self : KMSCSRBuilder) :
  regions_disjoint self →
  regions_disjoint (_set_subject_alt lib name values self).2.
Proof.
  apply regions_disjoint_frame.
  by destruct (_set_subject_alt_fields lib name values self) as [san ->].
Qed.

Lemma build_regions_disjoint (kms : KMSClient) (arn : string)
    (self : KMSCSRBuilder) :
  regions_disjoint self →
  regions_disjoint (build_with_kms lib kms arn self).2.
Proof.
  apply regions_disjoint_frame.
  unfold build_with_kms, sign_request. rewrite !bind_run. unfold lift at 1.
  destruct (describe_key kms arn) as [kms_algos|]; [|done].
  rewrite bind_run. unfold lift at 1.
  destruct (of_option _ _) as [sa|]; [|done].
  rewrite bind_run.
  destruct (negotiate sa self) as [o s1] eqn:Hn.
  assert (_other_extensions s1 = _other_extensions self) as <-.
  { apply negotiate_frame in Hn as [[-> _]|(v & id & _ & -> & _)]; done. }
  destruct o as [id|]; [|done]. run.
  destruct (sign kms arn _ _); [|done]. by destruct id.
Qed.

Lemma set_extension_regions_disjoint (name : string)
    (value : option x509.Asn1Value) (self : KMSCSRBuilder) :
  regions_disjoint self →
  regions_disjoint (set_extension lib name value self).2.
Proof.
  intros Hdisj. unfold set_extension. rewrite bind_run. unfold lift.
  destruct (ExtensionId_native lib name) as [canonical|]; [|done].
  rewrite bind_run.
  assert (Hcheck : ∀ s : KMSCSRBuilder,
    (match value with
     | Some v => if negb (isinstance v (Extension_spec lib canonical))
                 then raise TypeError else ret tt
     | None => ret tt
     end : M KMSCSRBuilder unit) s = (Return tt, s) ∨
    (match value with
     | Some v => if negb (isinstance v (Extension_spec lib canonical))
                 then raise TypeError else ret tt
     | None => ret tt
     end : M KMSCSRBuilder unit) s = (Raise TypeError, s)).
  { intros s. destruct value as [v|]; [|by left].
    destruct (negb _); [by right | by left]. }
  destruct (Hcheck self) as [-> | ->]; [|done].
  case_bool_decide as Hsp.
  - revert Hdisj. apply regions_disjoint_frame.
    unfold modify, setattr_special. cbn [snd].
    repeat (destruct (String.eqb canonical _); [done|]). done.
  - destruct value as [v|].
    + intros n Hn. unfold modify. cbn.
      rewrite lookup_insert_ne; [by apply Hdisj | congruence].
    + rewrite bind_run. unfold get.
      case_bool_decide; [|done].
      intros n Hn. unfold modify. cbn.
      rewrite lookup_delete_ne; [by apply Hdisj | congruence].
Qed.

End Regions.

(** ** The CA flag and the subject alternative name setters *)

Section Convenience.

Context (lib : Asn1Lib).

(** C7: the CA setter always returns.  With a true value it sets basic
    constraints with ca true, key usage exactly {key_cert_sign, crl_sign}
    and extended key usage exactly {ocsp_signing}; with a false value, ca
    false, {digital_signature, key_encipherment} and {server_auth,
    client_auth}; with None it clears basic constraints, so that [ca] reads
    None, leaves the two usage fields alone, and a request built from the
    result carries no basic_constraints extension. *)
Theorem ca_setter_rewrites_usages (self : KMSCSRBuilder) :
  ((ca_setter (Some true) self).1 = Return tt ∧
   _basic_constraints (ca_setter (Some true) self).2 =
     Some {| x509.ca := true; x509.path_len_constraint := None |} ∧
   ca (ca_setter (Some true) self).2 = Some true ∧
   key_usage (ca_setter (Some true) self).2 = {[ "key_cert_sign"; "crl_sign" ]} ∧
   extended_key_usage (ca_setter (Some true) self).2 = {[ "ocsp_signing" ]}) ∧
  ((ca_setter (Some false) self).1 = Return tt ∧
   _basic_constraints (ca_setter (Some false) self).2 =
     Some {| x509.ca := false; x509.path_len_constraint := None |} ∧
   ca (ca_setter (Some false) self).2 = Some false ∧
   key_usage (ca_setter (Some false) self).2 =
     {[ "digital_signature"; "key_encipherment" ]} ∧
   extended_key_usage (ca_setter (Some false) self).2 =
     {[ "server_auth"; "client_auth" ]}) ∧
  ((ca_setter None self).1 = Return tt ∧
   ca (ca_setter None self).2 = None ∧
   _key_usage (ca_setter None self).2 = _key_usage self ∧
   _extended_key_usage (ca_setter None self).2 = _extended_key_usage self ∧
   (regions_disjoint self →
    ∀ kms arn r self',
      build_with_kms lib kms arn (ca_setter None self).2 = (Return r, self') →
      "basic_constraints" ∉ request_extension_ids r)).
Proof.
  rewrite !ca_setter_run. cbn [fst snd].
  split; [|split].
  - by repeat split.
  - by repeat split.
  - do 4 (split; [done|]). intros Hdisj kms arn r self' Hb.
    eapply (build_omits_unset_special lib); [| | |exact Hb]; [done| |done].
    apply elem_of_special. by left.
Qed.

(** C10: the setter of the domains keeps every entry that is not a
    dns_name, in particular the ip_address entries, and the setter of the
    IPs every entry that is not an ip_address, whatever the outcome.  A
    setter returns when the library accepts every value; when it returns,
    the entries of its kind are the names built from the values, and a SAN
    field that would hold the empty list holds None: both readers give the
    empty list and a request built from the result carries no
    subject_alt_name extension.  When the library refuses a value the
    setter raises before that last step: a field left with the empty list
    holds that list and not None, both readers give the empty list, and a
    request built from the result does carry a subject_alt_name
    extension. *)
Theorem subject_alt_setters_frame (values : option (list string))
    (self : KMSCSRBuilder) :
  (∀ kind, kind ≠ "dns_name" →
     filter (λ g, x509.name g = kind)
       (default [] (_subject_alt_name
                      (subject_alt_domains_setter lib values self).2))
     = filter (λ g, x509.name g = kind) (default [] (_subject_alt_name self))) ∧
  subject_alt_ips (subject_alt_domains_setter lib values self).2
    = subject_alt_ips self ∧
  (∀ kind, kind ≠ "ip_address" →
     filter (λ g, x509.name g = kind)
       (default [] (_subject_alt_name
                      (subject_alt_ips_setter lib values self).2))
     = filter (λ g, x509.name g = kind) (default [] (_subject_alt_name self))) ∧
  subject_alt_domains (subject_alt_ips_setter lib values self).2
    = subject_alt_domains self ∧
  (∀ name, name = "dns_name" ∨ name = "ip_address" →
     (Forall (λ v, ∃ n, GeneralName_native lib name v = Return n)
             (default [] values) →
      (_set_subject_alt lib name values self).1 = Return tt) ∧
     ((_set_subject_alt lib name values self).1 = Return tt →
      _get_subject_alt name (_set_subject_alt lib name values self).2
        = x509.native <$>
            (GeneralNames_upto lib name (default [] values)).1 ∧
      (default [] (_subject_alt_name (_set_subject_alt lib name values self).2)
         = [] →
       _subject_alt_name (_set_subject_alt lib name values self).2 = None ∧
       subject_alt_domains (_set_subject_alt lib name values self).2 = [] ∧
       subject_alt_ips (_set_subject_alt lib name values self).2 = [] ∧
       (regions_disjoint self →
        ∀ kms arn r self',
          build_with_kms lib kms arn (_set_subject_alt lib name values self).2
            = (Return r, self') →
          "subject_alt_name" ∉ request_extension_ids r))) ∧
     (∀ e, (_set_subject_alt lib name values self).1 = Raise e →
      default [] (_subject_alt_name (_set_subject_alt lib name values self).2)
        = [] →
      _subject_alt_name (_set_subject_alt lib name values self).2 = Some [] ∧
      subject_alt_domains (_set_subject_alt lib name values self).2 = [] ∧
      subject_alt_ips (_set_subject_alt lib name values self).2 = [] ∧
      ∀ kms arn r self',
        build_with_kms lib kms arn (_set_subject_alt lib name values self).2
          = (Return r, self') →
        "subject_alt_name" ∈ request_extension_ids r)).
Proof.
  unfold subject_alt_domains_setter, subject_alt_ips_setter,
    subject_alt_domains, subject_alt_ips.
  split; [|split; [|split; [|split]]].
  - intros kind Hk. by apply _set_subject_alt_other_kind.
  - rewrite !_get_subject_alt_entries.
    by rewrite _set_subject_alt_other_kind.
  - intros kind Hk. by apply _set_subject_alt_other_kind.
  - rewrite !_get_subject_alt_entries.
    by rewrite _set_subject_alt_other_kind.
  - intros name _. split; [|split].
    + intros Hall. rewrite _set_subject_alt_run. cbv zeta.
      destruct values as [vs|]; [|done].
      pose proof (GeneralNames_upto_total lib name vs Hall) as He.
      destruct (GeneralNames_upto lib name vs) as [gs e].
      cbn in He. by subst e.
    + intros Hret. split.
      * rewrite _get_subject_alt_entries, _set_subject_alt_same_kind.
        by destruct values.
      * intros Hempty.
        assert (Hnone :
          _subject_alt_name (_set_subject_alt lib name values self).2 = None).
        { revert Hret Hempty. rewrite _set_subject_alt_run. cbv zeta.
          destruct (match values with
                    | Some values => GeneralNames_upto lib name values
                    | None => ([], None)
                    end) as [gs [e|]]; [done|].
          intros _. cbn. by destruct (_ ++ gs)%list. }
        split; [done|].
        unfold _get_subject_alt. rewrite Hnone.
        split; [done|]. split; [done|].
        intros Hdisj kms arn r self' Hb.
        eapply (build_omits_unset_special lib); [| | |exact Hb].
        -- by apply _set_subject_alt_regions_disjoint.
        -- apply elem_of_special. right. by left.
        -- unfold getattr_special. cbn. by rewrite Hnone.
    + intros e Hraise Hempty.
      assert (Hsome :
        _subject_alt_name (_set_subject_alt lib name values self).2 = Some []).
      { revert Hraise Hempty. rewrite _set_subject_alt_run. cbv zeta.
        destruct (match values with
                  | Some values => GeneralNames_upto lib name values
                  | None => ([], None)
                  end) as [gs [e0|]]; [|done].
        intros _. cbn. by intros ->. }
      split; [done|].
      unfold _get_subject_alt. rewrite Hsome.
      split; [done|]. split; [done|].
      intros kms arn r self' Hb.
      rewrite (build_request_ids lib _ _ _ _ _ Hb), extensions_ids.
      apply elem_of_app. left. apply list_elem_of_filter. split.
      * unfold getattr_special. cbn. rewrite Hsome. by eexists.
      * do 3 apply list_elem_of_further. apply list_elem_of_here.
Qed.

End Convenience.

(** On a fresh builder, clearing the CA flag and building against an RSA
    key gives a request with the two usage extensions only. *)
Lemma ca_setter_rewrites_usages_witness :
  regions_disjoint Stub.fresh ∧
  ca (ca_setter None Stub.fresh).2 = None ∧
  ∃ r self',
    build_with_kms Stub.lib Stub.kms_rsa "arn:key" (ca_setter None Stub.fresh).2
      = (Return r, self') ∧
    request_extension_ids r = ["extended_key_usage"; "key_usage"] ∧
    "basic_constraints" ∉ request_extension_ids r.
Proof.
  assert (Hdisj : regions_disjoint Stub.fresh).
  { intros name _. apply lookup_empty. }
  destruct (ca_setter_rewrites_usages Stub.lib Stub.fresh)
    as (_ & _ & _ & Hca & _ & _ & Hbuild).
  split; [exact Hdisj|]. split; [exact Hca|].
  destruct (build_with_kms Stub.lib Stub.kms_rsa "arn:key"
              (ca_setter None Stub.fresh).2) as [[r|e] self'] eqn:Hb;
    [|vm_compute in Hb; discriminate].
  exists r, self'. split; [reflexivity|].
  split; [|exact (Hbuild Hdisj _ _ _ _ Hb)].
  vm_compute in Hb. by injection Hb as <- _.
Defined.

(** On the builder with one domain and one IP, setting the domains to the
    empty list keeps the IP; clearing the IPs next removes the field, and a
    request built then has no subject_alt_name extension.  On the fresh
    builder, an IP that the library refuses leaves the empty list in the
    field, and a request built then has the extension. *)
Lemma subject_alt_setters_frame_witness :
  subject_alt_ips (subject_alt_domains_setter Stub.lib (Some []) Stub.busy).2
    = ["10.0.0.1"] ∧
  subject_alt_domains (subject_alt_domains_setter Stub.lib (Some []) Stub.busy).2
    = [] ∧
  (∃ cleared r self',
    (subject_alt_ips_setter Stub.lib None
       (subject_alt_domains_setter Stub.lib (Some []) Stub.busy).2)
      = (Return tt, cleared) ∧
    _subject_alt_name cleared = None ∧
    build_with_kms Stub.lib Stub.kms_rsa "arn:key" cleared = (Return r, self') ∧
    "subject_alt_name" ∉ request_extension_ids r) ∧
  (∃ r self',
    subject_alt_ips_setter Stub.lib (Some [""]) Stub.fresh
      = (Raise ValueError, with_subject_alt_name (Some []) Stub.fresh) ∧
    subject_alt_ips (with_subject_alt_name (Some []) Stub.fresh) = [] ∧
    subject_alt_domains (with_subject_alt_name (Some []) Stub.fresh) = [] ∧
    build_with_kms Stub.lib Stub.kms_rsa "arn:key"
      (with_subject_alt_name (Some []) Stub.fresh) = (Return r, self') ∧
    "subject_alt_name" ∈ request_extension_ids r).
Proof.
  pose (b1 := (subject_alt_domains_setter Stub.lib (Some []) Stub.busy).2).
  destruct (subject_alt_setters_frame Stub.lib (Some []) Stub.busy)
    as (_ & Hips & _ & _ & Hdns).
  destruct (Hdns "dns_name" (or_introl eq_refl)) as (Htotal & Hset & _).
  destruct (Hset (Htotal (Forall_nil_2 _))) as (Hdoms & _).
  split; [rewrite Hips; by vm_compute|]. split; [exact Hdoms|].
  split.
  - destruct (subject_alt_setters_frame Stub.lib None b1)
      as (_ & _ & _ & _ & Hip).
    destruct (Hip "ip_address" (or_intror eq_refl)) as (Htotal' & Hset' & _).
    pose proof (Htotal' (Forall_nil_2 _)) as Hret.
    destruct (Hset' Hret) as (_ & Hempty).
    assert (Hdisj : regions_disjoint b1).
    { intros name [->| [->| [->| ->]]]%elem_of_special; by vm_compute. }
    destruct (Hempty ltac:(by vm_compute)) as (Hnone & _ & _ & Hbuild).
    destruct (build_with_kms Stub.lib Stub.kms_rsa "arn:key"
                (_set_subject_alt Stub.lib "ip_address" None b1).2)
      as [[r|e] self'] eqn:Hb; [|vm_compute in Hb; discriminate].
    exists (_set_subject_alt Stub.lib "ip_address" None b1).2, r, self'.
    split.
    { unfold subject_alt_ips_setter. fold b1.
      rewrite <- Hret. by destruct (_set_subject_alt _ _ _ _). }
    split; [exact Hnone|]. split; [exact Hb|].
    exact (Hbuild Hdisj _ _ _ _ Hb).
  - assert (Hrun : _set_subject_alt Stub.lib "ip_address" (Some [""]) Stub.fresh
                   = (Raise ValueError,
                      with_subject_alt_name (Some []) Stub.fresh))
      by (by vm_compute).
    destruct (subject_alt_setters_frame Stub.lib (Some [""]) Stub.fresh)
      as (_ & _ & _ & _ & Hip).
    destruct (Hip "ip_address" (or_intror eq_refl)) as (_ & _ & Hraise).
    destruct (Hraise ValueError) as (_ & Hd & Hi & Hbuild).
    { by rewrite Hrun. }
    { by rewrite Hrun. }
    rewrite Hrun in Hd, Hi, Hbuild. cbn [snd] in Hd, Hi, Hbuild.
    destruct (build_with_kms Stub.lib Stub.kms_rsa "arn:key"
                (with_subject_alt_name (Some []) Stub.fresh))
      as [[r|e] self'] eqn:Hb; [|vm_compute in Hb; discriminate].
    exists r, self'. split; [exact Hrun|]. split; [exact Hi|].
    split; [exact Hd|]. split; [reflexivity|].
    exact (Hbuild _ _ _ _ Hb).
Defined.

(** ** set_extension *)

Section SetExtension.

Context (lib : Asn1Lib).

(** The type check of [set_extension]: None passes, a value passes when it
    is an instance of the expected class. *)
Lemma set_extension_run (name canonical : string)
    (value : option x509.Asn1Value) (self : KMSCSRBuilder) :
  ExtensionId_native lib name = Return canonical →
  set_extension lib name value self =
  if match value with
     | Some v => isinstance v (Extension_spec lib canonical)
     | None => true
     end
  then
    (Return tt,
     if bool_decide (canonical ∈ _special_extensions)
     then setattr_special canonical value self
     else with_other_extensions
            (match value with
             | None => delete canonical (_other_extensions self)
             | Some v => <[canonical := v]> (_other_extensions self)
             end) self)
  else (Raise TypeError, self).
Proof.
  intros Hid. unfold set_extension. rewrite bind_run. unfold lift.
  rewrite Hid. rewrite bind_run.
  destruct value as [v|].
  - destruct (isinstance v (Extension_spec lib canonical)); [|done].
    cbn. by case_bool_decide.
  - cbn. case_bool_decide; [done|].
    rewrite bind_run. unfold get.
    case_bool_decide as Hin; [done|].
    unfold mret, M_ret, ret. f_equal.
    rewrite delete_id; [by destruct self|].
    by apply eq_None_not_Some.
Qed.

(** Reading back a special field after storing a value of its class. *)
Lemma getattr_setattr_special (canonical : string)
    (value : option x509.Asn1Value) (self : KMSCSRBuilder) :
  canonical ∈ _special_extensions →
  (∀ v, value = Some v → x509.class_of v = Extension_spec lib canonical) →
  getattr_special canonical (setattr_special canonical value self) = value.
Proof.
  intros Hsp Hty.
  destruct value as [v|].
  - specialize (Hty v eq_refl).
    apply elem_of_special in Hsp as [-> | [-> | [-> | ->]]];
      destruct v; try discriminate Hty; reflexivity.
  - apply elem_of_special in Hsp as [-> | [-> | [-> | ->]]]; reflexivity.
Qed.

Lemma getattr_setattr_special_ne (canonical n : string)
    (value : option x509.Asn1Value) (self : KMSCSRBuilder) :
  n ≠ canonical →
  getattr_special n (setattr_special canonical value self)
    = getattr_special n self.
Proof.
  intros Hne. unfold setattr_special.
  destruct (String.eqb_spec canonical "basic_constraints") as [->|_].
  { unfold getattr_special.
    destruct (String.eqb_spec n "basic_constraints"); [done|reflexivity]. }
  destruct (String.eqb_spec canonical "subject_alt_name") as [->|_].
  { unfold getattr_special.
    destruct (String.eqb_spec n "basic_constraints"); [reflexivity|].
    destruct (String.eqb_spec n "subject_alt_name"); [done|reflexivity]. }
  destruct (String.eqb_spec canonical "key_usage") as [->|_].
  { unfold getattr_special.
    destruct (String.eqb_spec n "basic_constraints"); [reflexivity|].
    destruct (String.eqb_spec n "subject_alt_name"); [reflexivity|].
    destruct (String.eqb_spec n "key_usage"); [done|reflexivity]. }
  destruct (String.eqb_spec canonical "extended_key_usage") as [->|_].
  { unfold getattr_special.
    destruct (String.eqb_spec n "basic_constraints"); [reflexivity|].
    destruct (String.eqb_spec n "subject_alt_name"); [reflexivity|].
    destruct (String.eqb_spec n "key_usage"); [reflexivity|].
    destruct (String.eqb_spec n "extended_key_usage"); [done|reflexivity]. }
  reflexivity.
Qed.

Lemma setattr_special_other (canonical : string)
    (value : option x509.Asn1Value) (self : KMSCSRBuilder) :
  _other_extensions (setattr_special canonical value self)
    = _other_extensions self.
Proof.
  unfold setattr_special.
  repeat (destruct (String.eqb canonical _); [reflexivity|]). reflexivity.
Qed.

(** C8: for an identity the library resolves to a canonical name, a value
    that is not an instance of the class expected for it makes
    [set_extension] raise TypeError, the builder left as it was.  A value
    of the expected class, or None, makes it return; a special identity is
    then read back from its dedicated field, the rest of the extension state
    unchanged, and any other identity is bound in the open map to the value,
    or unbound when the value is None, the other keys and the special
    fields unchanged. *)
Theorem set_extension_typed (name canonical : string)
    (value : option x509.Asn1Value) (self : KMSCSRBuilder) :
  ExtensionId_native lib name = Return canonical →
  (∀ v, value = Some v →
        x509.class_of v ≠ Extension_spec lib canonical →
        set_extension lib name value self = (Raise TypeError, self)) ∧
  ((∀ v, value = Some v → x509.class_of v = Extension_spec lib canonical) →
   (set_extension lib name value self).1 = Return tt ∧
   (canonical ∈ _special_extensions →
    getattr_special canonical (set_extension lib name value self).2 = value ∧
    (∀ n, n ≠ canonical →
          getattr_special n (set_extension lib name value self).2
            = getattr_special n self) ∧
    _other_extensions (set_extension lib name value self).2
      = _other_extensions self) ∧
   (canonical ∉ _special_extensions →
    _other_extensions (set_extension lib name value self).2 !! canonical
      = value ∧
    (∀ k, k ≠ canonical →
          _other_extensions (set_extension lib name value self).2 !! k
            = _other_extensions self !! k) ∧
    (∀ n, getattr_special n (set_extension lib name value self).2
            = getattr_special n self))).
Proof.
  intros Hid. rewrite (set_extension_run _ _ _ _ Hid). split.
  - intros v -> Hc. unfold isinstance. by rewrite bool_decide_eq_false_2.
  - intros Hty.
    assert (match value with
            | Some v => isinstance v (Extension_spec lib canonical)
            | None => true
            end = true) as ->.
    { destruct value as [v|]; [|done].
      unfold isinstance. apply bool_decide_eq_true_2. by apply Hty. }
    split; [done|]. cbn [snd]. split.
    + intros Hsp. rewrite bool_decide_eq_true_2; [|done].
      split; [by apply getattr_setattr_special|].
      split; [intros n Hn; by apply getattr_setattr_special_ne|].
      apply setattr_special_other.
    + intros Hsp. rewrite bool_decide_eq_false_2; [|done].
      split; [|split].
      * cbn. destruct value; [apply lookup_insert_eq | apply lookup_delete_eq].
      * intros k Hk. cbn.
        destruct value; [by apply lookup_insert_ne | by apply lookup_delete_ne].
      * intros n. reflexivity.
Qed.

End SetExtension.

(** On the builder with two open-map entries: a key-usage value for
    tls_feature is refused and nothing changes; None for tls_feature
    unbinds it; basic constraints given by OID land in the dedicated
    field. *)
Lemma set_extension_typed_witness :
  set_extension Stub.lib "tls_feature" (Some (x509.VKeyUsage ∅)) Stub.busy
    = (Raise TypeError, Stub.busy) ∧
  _other_extensions
    (set_extension Stub.lib "tls_feature" None Stub.busy).2 !! "tls_feature"
    = None ∧
  _basic_constraints
    (set_extension Stub.lib "2.5.29.19"
       (Some (x509.VBasicConstraints
                {| x509.ca := true; x509.path_len_constraint := Some 0 |}))
       Stub.busy).2
    = Some {| x509.ca := true; x509.path_len_constraint := Some 0 |}.
Proof.
  split; [|split].
  - destruct (set_extension_typed Stub.lib "tls_feature" "tls_feature"
                (Some (x509.VKeyUsage ∅)) Stub.busy eq_refl) as (Hbad & _).
    apply (Hbad (x509.VKeyUsage ∅)); [reflexivity | by vm_compute].
  - destruct (set_extension_typed Stub.lib "tls_feature" "tls_feature"
                None Stub.busy eq_refl) as (_ & Hok).
    destruct Hok as (_ & _ & Hopen); [done|].
    destruct Hopen as (Hget & _); [by vm_compute|]. exact Hget.
  - destruct (set_extension_typed Stub.lib "2.5.29.19" "basic_constraints"
                (Some (x509.VBasicConstraints
                   {| x509.ca := true; x509.path_len_constraint := Some 0 |}))
                Stub.busy eq_refl) as (_ & Hok).
    destruct Hok as (_ & Hsp & _); [by intros ? [= <-]|].
    destruct Hsp as (Hget & _); [by vm_compute|].
    apply (f_equal (λ o, o ≫= x509.as_BasicConstraints)) in Hget.
    revert Hget. unfold getattr_special. cbn [String.eqb Ascii.eqb Bool.eqb].
    by destruct (_basic_constraints _).
Defined.

(** ** The key reference *)

Section KeyReference.

Context (lib : Asn1Lib).

(** C1: what the [kms_arn] setter does, by the answer of the remote
    lookup.  A usage other than SIGN_VERIFY raises ValueError at the
    assignment, and a key that loads is cached with its reference.  When
    the lookup itself raises, the handler prints a line and the setter goes
    on to read the response it never received: the exception that leaves
    the setter is UnboundLocalError, which is not a configuration error. *)
Theorem kms_arn_outcome (kms : KMSClient) (value : string)
    (self : KMSCSRBuilder) :
  kms_arn lib kms value self =
  match get_public_key kms value with
  | Raise _ => (Raise UnboundLocalError, self, ["Could not get PublicKey"])
  | Return r =>
      if String.eqb (KeyUsage r) "SIGN_VERIFY"
      then match load_public_key lib (PublicKey r) with
           | Return pk => (Return tt, with_kms_arn value pk self, [])
           | Raise e => (Raise e, self, [])
           end
      else (Raise ValueError, self, [])
  end ∧
  is_ConfigurationError UnboundLocalError = false ∧
  is_ConfigurationError ValueError = true.
Proof.
  split; [|done].
  unfold kms_arn, kms_arn_lookup.
  destruct (get_public_key kms value) as [r|e]; [|done].
  destruct (String.eqb (KeyUsage r) "SIGN_VERIFY"); [|done].
  by destruct (load_public_key lib (PublicKey r)).
Qed.

End KeyReference.

(** An unknown key reference, on an existing builder and in the
    constructor. *)
Lemma kms_arn_unknown_key :
  get_public_key Stub.kms_rsa "arn:unknown" = Raise ClientError ∧
  kms_arn Stub.lib Stub.kms_rsa "arn:unknown" Stub.fresh
    = (Raise UnboundLocalError, Stub.fresh, ["Could not get PublicKey"]) ∧
  __init__ Stub.lib Stub.kms_rsa (SubjectDict [("common_name", "x")])
           "arn:unknown"
    = (Raise UnboundLocalError, ["Could not get PublicKey"]).
Proof. by vm_compute. Qed.

(** A key for encryption is refused at the assignment, and a signing key
    gives the fresh builder. *)
Lemma kms_arn_usage_checked :
  kms_arn Stub.lib Stub.kms_encrypt "arn:key" Stub.fresh
    = (Raise ValueError, Stub.fresh, []) ∧
  __init__ Stub.lib Stub.kms_rsa (SubjectDict [("common_name", "x")]) "arn:key"
    = (Return Stub.fresh, []).
Proof. by vm_compute. Qed.

(** ** Negotiation of the signature algorithm *)

Section Negotiation.

Context (lib : Asn1Lib).

Lemma build_with_kms_run (kms : KMSClient) (arn : string)
    (kms_algos : list string) (signature_algo : string)
    (self : KMSCSRBuilder) :
  describe_key kms arn = Return kms_algos →
  select_key_type kms_algos = Some signature_algo →
  build_with_kms lib kms arn self = sign_request lib kms arn signature_algo self.
Proof.
  intros Hd Hs. unfold build_with_kms.
  rewrite bind_run. unfold lift at 1. rewrite Hd.
  rewrite bind_run. unfold lift at 1. by rewrite Hs.
Qed.

Lemma sign_request_run (kms : KMSClient) (arn : string)
    (signature_algo : string) (self : KMSCSRBuilder)
    (id : algos.SignatureAlgorithmId) (name : string) :
  negotiate signature_algo self
    = (Return (Some id), with_kms_signature_algo name self) →
  sign_request lib kms arn signature_algo self =
  match sign kms arn name (dump lib (certification_request_info self)) with
  | Return sig =>
      (Return {| csr.certification_request_info :=
                   certification_request_info self;
                 csr.signature_algorithm := id;
                 csr.signature := sig |},
       with_kms_signature_algo name self)
  | Raise e => (Raise e, with_kms_signature_algo name self)
  end.
Proof.
  intros Hn. unfold sign_request. rewrite bind_run, Hn.
  rewrite bind_run. unfold get. rewrite bind_run. unfold lift at 1.
  change (_kms_signature_algo (with_kms_signature_algo name self)) with name.
  change (certification_request_info (with_kms_signature_algo name self))
    with (certification_request_info self).
  by destruct (sign kms arn name _).
Qed.

Lemma select_key_type_rsa (kms_algos : list string) :
  "RSASSA_PSS_SHA_256" ∈ kms_algos → select_key_type kms_algos = Some "rsa".
Proof.
  intros Hin. unfold select_key_type, Py.list_in.
  by rewrite bool_decide_eq_true_2.
Qed.

Lemma select_key_type_ecdsa (kms_algos : list string) :
  "RSASSA_PSS_SHA_256" ∉ kms_algos → "ECDSA_SHA_256" ∈ kms_algos →
  select_key_type kms_algos = Some "ecdsa".
Proof.
  intros Hnot Hin. unfold select_key_type, Py.list_in.
  rewrite bool_decide_eq_false_2; [|done]. by rewrite bool_decide_eq_true_2.
Qed.

Lemma negotiate_rsa (self : KMSCSRBuilder) :
  _hash_algo self = "sha256" ∨ _hash_algo self = "sha512" →
  negotiate "rsa" self =
  if Py.str_in "PSS" (_kms_signature_algo self)
  then (Return (Some (pss_identifier (_hash_algo self))),
        with_kms_signature_algo
          ("RSASSA_PSS_SHA_" ++ Py.last3 (_hash_algo self)) self)
  else (Return (Some (algos.AlgorithmDict (_hash_algo self ++ "_rsa"))),
        with_kms_signature_algo
          ("RSASSA_PKCS1_V1_5_SHA_" ++ Py.last3 (_hash_algo self)) self).
Proof.
  intros Hh. unfold negotiate. rewrite bind_run. unfold get.
  cbv beta iota.
  destruct (Py.str_in "PSS" (_kms_signature_algo self));
    destruct Hh as [-> | ->]; by vm_compute.
Qed.

Lemma negotiate_ecdsa (self : KMSCSRBuilder) :
  _hash_algo self = "sha256" ∨ _hash_algo self = "sha512" →
  negotiate "ecdsa" self =
  (Return (Some (algos.AlgorithmDict (_hash_algo self ++ "_ecdsa"))),
   with_kms_signature_algo ("ECDSA_SHA_" ++ Py.last3 (_hash_algo self)) self).
Proof.
  intros Hh. unfold negotiate. rewrite bind_run. unfold get.
  cbv beta iota. destruct Hh as [-> | ->]; by vm_compute.
Qed.

Lemma select_key_type_none (kms_algos : list string) :
  "RSASSA_PSS_SHA_256" ∉ kms_algos → "ECDSA_SHA_256" ∉ kms_algos →
  select_key_type kms_algos = None.
Proof.
  intros Hrsa Hec. unfold select_key_type, Py.list_in.
  by rewrite !bool_decide_eq_false_2.
Qed.

Lemma build_with_kms_unbound (kms : KMSClient) (arn : string)
    (kms_algos : list string) (self : KMSCSRBuilder) :
  describe_key kms arn = Return kms_algos →
  select_key_type kms_algos = None →
  build_with_kms lib kms arn self = (Raise UnboundLocalError, self).
Proof.
  intros Hd Hs. unfold build_with_kms.
  rewrite bind_run. unfold lift at 1. rewrite Hd.
  rewrite bind_run. unfold lift at 1. by rewrite Hs.
Qed.

(** With the hash name sha1 the width is "ha1": [int] fails on it, and
    neither RSASSA_PKCS1_V1_5_SHA_ha1 nor ECDSA_SHA_ha1 is a name the
    setter of the preference accepts. *)
Lemma negotiate_sha1 (signature_algo : string) (self : KMSCSRBuilder) :
  signature_algo = "rsa" ∨ signature_algo = "ecdsa" →
  _hash_algo self = "sha1" →
  negotiate signature_algo self = (Raise ValueError, self).
Proof.
  intros Hsa Hh. unfold negotiate. rewrite bind_run. unfold get.
  cbv beta iota. rewrite Hh.
  destruct Hsa as [-> | ->].
  - destruct (Py.str_in "PSS" (_kms_signature_algo self)); by vm_compute.
  - by vm_compute.
Qed.

Lemma sign_request_raise (kms : KMSClient) (arn : string)
    (signature_algo : string) (self : KMSCSRBuilder) (e : exn) :
  negotiate signature_algo self = (Raise e, self) →
  sign_request lib kms arn signature_algo self = (Raise e, self).
Proof. intros Hn. unfold sign_request. by rewrite bind_run, Hn. Qed.

(** C2: what the code does with the names the remote key reports.  The
    key type is RSA when the name RSASSA_PSS_SHA_256 is among them, and
    otherwise EC when ECDSA_SHA_256 is; the build goes on with that key
    type.  When neither name is reported no key type is bound: the build
    stops on the unbound local, with an exception that is not a
    configuration error, the builder as it was and the signer not reached,
    whatever other RSA-PSS or ECDSA names the key reports. *)
Theorem key_type_selection (kms : KMSClient) (arn : string)
    (kms_algos : list string) (self : KMSCSRBuilder) :
  describe_key kms arn = Return kms_algos →
  ("RSASSA_PSS_SHA_256" ∈ kms_algos →
   select_key_type kms_algos = Some "rsa" ∧
   build_with_kms lib kms arn self = sign_request lib kms arn "rsa" self) ∧
  ("RSASSA_PSS_SHA_256" ∉ kms_algos → "ECDSA_SHA_256" ∈ kms_algos →
   select_key_type kms_algos = Some "ecdsa" ∧
   build_with_kms lib kms arn self = sign_request lib kms arn "ecdsa" self) ∧
  ("RSASSA_PSS_SHA_256" ∉ kms_algos → "ECDSA_SHA_256" ∉ kms_algos →
   select_key_type kms_algos = None ∧
   build_with_kms lib kms arn self = (Raise UnboundLocalError, self) ∧
   is_ConfigurationError UnboundLocalError = false).
Proof.
  intros Hd. split; [|split].
  - intros Hin. pose proof (select_key_type_rsa _ Hin) as Hs.
    split; [done|]. by apply build_with_kms_run with kms_algos.
  - intros Hnot Hin. pose proof (select_key_type_ecdsa _ Hnot Hin) as Hs.
    split; [done|]. by apply build_with_kms_run with kms_algos.
  - intros Hrsa Hec. pose proof (select_key_type_none _ Hrsa Hec) as Hs.
    split; [done|]. split; [|done]. by apply build_with_kms_unbound with kms_algos.
Qed.

(** C5: a build against a key classified RSA, for each hash name the
    [hash_algo] setter accepts.  With sha256 and sha512, a preference that
    names PSS gives the PSS parameter set of the configured hash (that
    hash, MGF1 with it, salt as long as its output) and the remote name
    RSASSA_PSS_SHA_ followed by the width; any other preference gives the
    identifier {algorithm: hash_rsa} and the remote name
    RSASSA_PKCS1_V1_5_SHA_ followed by the width.  The remote name is the
    one passed to the signer and left in the builder, the identifier the
    one of the request.  With sha1 the width is "ha1" and the build raises
    ValueError, whatever the preference: no identifier and no remote name
    are produced. *)
Theorem rsa_negotiation (kms : KMSClient) (arn : string)
    (kms_algos : list string) (self : KMSCSRBuilder) :
  describe_key kms arn = Return kms_algos →
  "RSASSA_PSS_SHA_256" ∈ kms_algos →
  (_hash_algo self = "sha256" ∨ _hash_algo self = "sha512" →
   build_with_kms lib kms arn self =
   let hash := _hash_algo self in
   let pss := Py.str_in "PSS" (_kms_signature_algo self) in
   let id := if pss then pss_identifier hash
             else algos.AlgorithmDict (hash ++ "_rsa") in
   let name := (if pss then "RSASSA_PSS_SHA_" else "RSASSA_PKCS1_V1_5_SHA_")
               ++ Py.last3 hash in
   match sign kms arn name (dump lib (certification_request_info self)) with
   | Return sig =>
       (Return {| csr.certification_request_info :=
                    certification_request_info self;
                  csr.signature_algorithm := id;
                  csr.signature := sig |},
        with_kms_signature_algo name self)
   | Raise e => (Raise e, with_kms_signature_algo name self)
   end) ∧
  (_hash_algo self = "sha1" →
   Py.last3 (_hash_algo self) = "ha1" ∧
   build_with_kms lib kms arn self = (Raise ValueError, self)).
Proof.
  intros Hd Hin. split.
  - intros Hh. cbv zeta.
    rewrite (build_with_kms_run _ _ _ _ _ Hd (select_key_type_rsa _ Hin)).
    apply sign_request_run. rewrite (negotiate_rsa _ Hh).
    by destruct (Py.str_in "PSS" (_kms_signature_algo self)).
  - intros Hh. split; [by rewrite Hh|].
    rewrite (build_with_kms_run _ _ _ _ _ Hd (select_key_type_rsa _ Hin)).
    apply sign_request_raise, negotiate_sha1; [by left|done].
Qed.

(** C6: a build against a key that reports ECDSA names only, for each
    hash name the [hash_algo] setter accepts.  When ECDSA_SHA_256 is among
    the names and the hash name is sha256 or sha512, the identifier is
    {algorithm: hash_ecdsa} and the remote name ECDSA_SHA_ followed by the
    last three characters of the hash name; with sha512 that is
    ECDSA_SHA_512.  With sha1 the name would be ECDSA_SHA_ha1, which the
    setter of the preference refuses with ValueError; and when
    ECDSA_SHA_256 is not among the names (a P-384 or P-521 key) the build
    stops on the unbound local before any negotiation. *)
Theorem ecdsa_negotiation (kms : KMSClient) (arn : string)
    (kms_algos : list string) (self : KMSCSRBuilder) :
  describe_key kms arn = Return kms_algos →
  Forall (λ name, is_ecdsa_name name = true) kms_algos →
  ("ECDSA_SHA_256" ∈ kms_algos →
   (_hash_algo self = "sha256" ∨ _hash_algo self = "sha512" →
    build_with_kms lib kms arn self =
      (let name := "ECDSA_SHA_" ++ Py.last3 (_hash_algo self) in
       match sign kms arn name (dump lib (certification_request_info self)) with
       | Return sig =>
           (Return {| csr.certification_request_info :=
                        certification_request_info self;
                      csr.signature_algorithm :=
                        algos.AlgorithmDict (_hash_algo self ++ "_ecdsa");
                      csr.signature := sig |},
            with_kms_signature_algo name self)
       | Raise e => (Raise e, with_kms_signature_algo name self)
       end)) ∧
   (_hash_algo self = "sha1" →
    "ECDSA_SHA_" ++ Py.last3 (_hash_algo self) = "ECDSA_SHA_ha1" ∧
    build_with_kms lib kms arn self = (Raise ValueError, self))) ∧
  ("ECDSA_SHA_256" ∉ kms_algos →
   build_with_kms lib kms arn self = (Raise UnboundLocalError, self)) ∧
  (_hash_algo self = "sha512" →
   "ECDSA_SHA_" ++ Py.last3 (_hash_algo self) = "ECDSA_SHA_512").
Proof.
  intros Hd Hall.
  assert (Hnot : "RSASSA_PSS_SHA_256" ∉ kms_algos).
  { intros Hrsa. rewrite Forall_forall in Hall.
    by specialize (Hall _ Hrsa). }
  split; [|split; [|by intros ->]].
  - intros Hin. split.
    + intros Hh. cbv zeta.
      rewrite (build_with_kms_run _ _ _ _ _ Hd
                 (select_key_type_ecdsa _ Hnot Hin)).
      apply sign_request_run. by apply negotiate_ecdsa.
    + intros Hh. split; [by rewrite Hh|].
      rewrite (build_with_kms_run _ _ _ _ _ Hd
                 (select_key_type_ecdsa _ Hnot Hin)).
      apply sign_request_raise, negotiate_sha1; [by right|done].
  - intros Hnin.
    by apply build_with_kms_unbound with kms_algos, select_key_type_none.
Qed.

End Negotiation.

(** The setters reach the three builders used below. *)
Lemma stub_builders_reachable :
  hash_algo "sha1" Stub.fresh = (Return tt, Stub.fresh_sha1) ∧
  hash_algo "sha512" Stub.fresh = (Return tt, Stub.fresh_sha512) ∧
  kms_signature_algo "RSASSA_PKCS1_V1_5_SHA_256" Stub.fresh
    = (Return tt, Stub.fresh_pkcs1) ∧
  hash_algo "sha384" Stub.fresh = (Raise ValueError, Stub.fresh).
Proof. by vm_compute. Qed.

(** A P-384 key reports ECDSA_SHA_384 only: an ECDSA name is present, but
    the code binds no key type and the build stops on the unbound local.
    The same happens for a lone RSASSA_PSS_SHA_384, and for a key that
    reports no name the exception is not a configuration error either. *)
Lemma key_type_unbound_on_p384 :
  describe_key Stub.kms_p384 "arn:key" = Return ["ECDSA_SHA_384"] ∧
  spec_key_type ["ECDSA_SHA_384"] = Some "ecdsa" ∧
  select_key_type ["ECDSA_SHA_384"] = None ∧
  build_with_kms Stub.lib Stub.kms_p384 "arn:key" Stub.fresh
    = (Raise UnboundLocalError, Stub.fresh) ∧
  spec_key_type ["RSASSA_PSS_SHA_384"] = Some "rsa" ∧
  select_key_type ["RSASSA_PSS_SHA_384"] = None ∧
  spec_key_type [] = None ∧
  build_with_kms Stub.lib Stub.kms_encrypt "arn:key" Stub.fresh
    = (Raise UnboundLocalError, Stub.fresh) ∧
  is_ConfigurationError UnboundLocalError = false.
Proof. by vm_compute. Qed.

(** An RSA key, a P-256 key and a P-384 key. *)
Lemma key_type_selection_witness :
  select_key_type Stub.rsa_algos = Some "rsa" ∧
  build_with_kms Stub.lib Stub.kms_rsa "arn:key" Stub.fresh
    = sign_request Stub.lib Stub.kms_rsa "arn:key" "rsa" Stub.fresh ∧
  select_key_type ["ECDSA_SHA_256"] = Some "ecdsa" ∧
  build_with_kms Stub.lib Stub.kms_p256 "arn:key" Stub.fresh
    = sign_request Stub.lib Stub.kms_p256 "arn:key" "ecdsa" Stub.fresh ∧
  select_key_type ["ECDSA_SHA_384"] = None ∧
  build_with_kms Stub.lib Stub.kms_p384 "arn:key" Stub.fresh
    = (Raise UnboundLocalError, Stub.fresh).
Proof.
  destruct (key_type_selection Stub.lib Stub.kms_rsa "arn:key" Stub.rsa_algos
              Stub.fresh eq_refl) as (Hrsa & _).
  destruct (key_type_selection Stub.lib Stub.kms_p256 "arn:key"
              ["ECDSA_SHA_256"] Stub.fresh eq_refl) as (_ & Hec & _).
  destruct (key_type_selection Stub.lib Stub.kms_p384 "arn:key"
              ["ECDSA_SHA_384"] Stub.fresh eq_refl) as (_ & _ & Hnone).
  destruct Hrsa as (H1 & H2).
  { decide_by_computation. }
  destruct Hec as (H3 & H4).
  { decide_by_computation. }
  { decide_by_computation. }
  destruct Hnone as (H5 & H6 & _).
  { decide_by_computation. }
  { decide_by_computation. }
  repeat split; assumption.
Defined.

(** With the hash name sha1 the last three characters are "ha1": on an RSA
    key with the default PSS preference the salt length cannot be computed
    and the build raises ValueError; with a PKCS1 preference the setter of
    the preference refuses the name RSASSA_PKCS1_V1_5_SHA_ha1.  No
    identifier and no remote name are produced. *)
Lemma rsa_negotiation_sha1 :
  describe_key Stub.kms_rsa "arn:key" = Return Stub.rsa_algos ∧
  select_key_type Stub.rsa_algos = Some "rsa" ∧
  Py.str_in "PSS" (_kms_signature_algo Stub.fresh_sha1) = true ∧
  Py.last3 (_hash_algo Stub.fresh_sha1) = "ha1" ∧
  negotiate "rsa" Stub.fresh_sha1 = (Raise ValueError, Stub.fresh_sha1) ∧
  build_with_kms Stub.lib Stub.kms_rsa "arn:key" Stub.fresh_sha1
    = (Raise ValueError, Stub.fresh_sha1) ∧
  Py.str_in "PSS" (_kms_signature_algo (with_hash_algo "sha1" Stub.fresh_pkcs1))
    = false ∧
  build_with_kms Stub.lib Stub.kms_rsa "arn:key"
      (with_hash_algo "sha1" Stub.fresh_pkcs1)
    = (Raise ValueError, with_hash_algo "sha1" Stub.fresh_pkcs1).
Proof. by vm_compute. Qed.

(** The default configuration against an RSA key, sha512 with a PKCS1
    preference, and sha1. *)
Lemma rsa_negotiation_witness :
  build_with_kms Stub.lib Stub.kms_rsa "arn:key" Stub.fresh =
    (Return
       {| csr.certification_request_info :=
            certification_request_info Stub.fresh;
          csr.signature_algorithm :=
            algos.SignedDigestAlgorithm "rsassa_pss"
              {| algos.hash_algorithm := {| algos.algorithm := "sha256" |};
                 algos.mask_gen_algorithm :=
                   {| algos.mgf_algorithm := "mgf1";
                      algos.mgf_parameters :=
                        {| algos.algorithm := "sha256" |} |};
                 algos.salt_length := 32 |};
          csr.signature := [x01; x02] |},
     with_kms_signature_algo "RSASSA_PSS_SHA_256" Stub.fresh) ∧
  build_with_kms Stub.lib Stub.kms_rsa "arn:key"
      (with_hash_algo "sha512" Stub.fresh_pkcs1) =
    (Return
       {| csr.certification_request_info :=
            certification_request_info Stub.fresh;
          csr.signature_algorithm := algos.AlgorithmDict "sha512_rsa";
          csr.signature := [x01; x02] |},
     with_kms_signature_algo "RSASSA_PKCS1_V1_5_SHA_512"
       (with_hash_algo "sha512" Stub.fresh_pkcs1)) ∧
  build_with_kms Stub.lib Stub.kms_rsa "arn:key" Stub.fresh_sha1
    = (Raise ValueError, Stub.fresh_sha1).
Proof.
  assert (Hin : "RSASSA_PSS_SHA_256" ∈ Stub.rsa_algos).
  { decide_by_computation. }
  split; [|split].
  - rewrite (proj1 (rsa_negotiation Stub.lib Stub.kms_rsa "arn:key"
                      Stub.rsa_algos Stub.fresh eq_refl Hin)
               (or_introl eq_refl)).
    by vm_compute.
  - rewrite (proj1 (rsa_negotiation Stub.lib Stub.kms_rsa "arn:key"
                      Stub.rsa_algos (with_hash_algo "sha512" Stub.fresh_pkcs1)
                      eq_refl Hin)
               (or_intror eq_refl)).
    by vm_compute.
  - exact (proj2 (proj2 (rsa_negotiation Stub.lib Stub.kms_rsa "arn:key"
                           Stub.rsa_algos Stub.fresh_sha1 eq_refl Hin)
                    eq_refl)).
Defined.

(** A P-384 key reports an ECDSA name only, and the build stops on the
    unbound local before any negotiation, whatever the hash; and on a P-256
    key the hash name sha1 gives the name ECDSA_SHA_ha1, which the setter of
    the preference refuses. *)
Lemma ecdsa_negotiation_p384_sha1 :
  describe_key Stub.kms_p384 "arn:key" = Return ["ECDSA_SHA_384"] ∧
  forallb is_ecdsa_name ["ECDSA_SHA_384"] = true ∧
  build_with_kms Stub.lib Stub.kms_p384 "arn:key" Stub.fresh_sha512
    = (Raise UnboundLocalError, Stub.fresh_sha512) ∧
  describe_key Stub.kms_p256 "arn:key" = Return ["ECDSA_SHA_256"] ∧
  forallb is_ecdsa_name ["ECDSA_SHA_256"] = true ∧
  Py.fmt2 "ECDSA_SHA" (Py.last3 (_hash_algo Stub.fresh_sha1)) = "ECDSA_SHA_ha1" ∧
  build_with_kms Stub.lib Stub.kms_p256 "arn:key" Stub.fresh_sha1
    = (Raise ValueError, Stub.fresh_sha1).
Proof. by vm_compute. Qed.

(** A remote key reporting the three ECDSA names with the hash sha512, a
    P-256 key with the hash sha1, and a P-384 key. *)
Lemma ecdsa_negotiation_witness :
  build_with_kms Stub.lib Stub.kms_ecdsa "arn:key" Stub.fresh_sha512 =
    (Return
       {| csr.certification_request_info :=
            certification_request_info Stub.fresh;
          csr.signature_algorithm := algos.AlgorithmDict "sha512_ecdsa";
          csr.signature := [x06] |},
     with_kms_signature_algo "ECDSA_SHA_512" Stub.fresh_sha512) ∧
  build_with_kms Stub.lib Stub.kms_p256 "arn:key" Stub.fresh_sha1
    = (Raise ValueError, Stub.fresh_sha1) ∧
  build_with_kms Stub.lib Stub.kms_p384 "arn:key" Stub.fresh_sha512
    = (Raise UnboundLocalError, Stub.fresh_sha512).
Proof.
  destruct (ecdsa_negotiation Stub.lib Stub.kms_ecdsa "arn:key"
              ["ECDSA_SHA_256"; "ECDSA_SHA_384"; "ECDSA_SHA_512"]
              Stub.fresh_sha512 eq_refl) as (Hb & _).
  { by repeat constructor. }
  destruct (ecdsa_negotiation Stub.lib Stub.kms_p256 "arn:key"
              ["ECDSA_SHA_256"] Stub.fresh_sha1 eq_refl) as (Hsha1 & _).
  { by repeat constructor. }
  destruct (ecdsa_negotiation Stub.lib Stub.kms_p384 "arn:key"
              ["ECDSA_SHA_384"] Stub.fresh_sha512 eq_refl) as (_ & Hp384 & _).
  { by repeat constructor. }
  split; [|split].
  - rewrite (proj1 (Hb ltac:(by constructor)) (or_intror eq_refl)).
    by vm_compute.
  - exact (proj2 (proj2 (Hsha1 ltac:(by constructor)) eq_refl)).
  - apply Hp384. decide_by_computation.
Defined.

(** ** More on builds *)

Section BuildOutcomes.

Context (lib : Asn1Lib).

Lemma negotiate_negotiation (signature_algo : string) (self : KMSCSRBuilder) :
  negotiate signature_algo self =
  match negotiation signature_algo (_hash_algo self)
          (Py.str_in "PSS" (_kms_signature_algo self)) with
  | Return (Some (id, name)) =>
      (Return (Some id), with_kms_signature_algo name self)
  | Return None => (Return None, self)
  | Raise e => (Raise e, self)
  end.
Proof.
  assert (Hset : ∀ (value : string) (id : algos.SignatureAlgorithmId),
    (let (o0, s') := kms_signature_algo value self in
     match o0 with
     | Return _ => (Return (Some id), s')
     | Raise e => (Raise e, s')
     end) =
    match (if Py.list_in value valid_algos then Return (Some (id, value))
           else Raise ValueError) with
    | Return (Some (id, name)) =>
        (Return (Some id), with_kms_signature_algo name self)
    | Return None => (Return None, self)
    | Raise e => (Raise e, self)
    end).
  { intros value id. rewrite kms_signature_algo_run.
    by destruct (Py.list_in value valid_algos). }
  unfold negotiate, negotiation. run.
  destruct (Py.str_in "ecdsa" signature_algo); [apply Hset|].
  destruct (Py.str_in "rsa" signature_algo); [|done].
  destruct (Py.str_in "PSS" _); [|apply Hset].
  destruct (Py.int _); [apply Hset|done].
Qed.

(** The whole of a build, step by step. *)
Lemma build_with_kms_eval (kms : KMSClient) (arn : string)
    (self : KMSCSRBuilder) :
  build_with_kms lib kms arn self =
  match describe_key kms arn with
  | Raise e => (Raise e, self)
  | Return kms_algos =>
      match select_key_type kms_algos with
      | None => (Raise UnboundLocalError, self)
      | Some signature_algo =>
          match negotiation signature_algo (_hash_algo self)
                  (Py.str_in "PSS" (_kms_signature_algo self)) with
          | Raise e => (Raise e, self)
          | Return None =>
              match sign kms arn (_kms_signature_algo self)
                      (dump lib (certification_request_info self)) with
              | Return _ => (Raise UnboundLocalError, self)
              | Raise e => (Raise e, self)
              end
          | Return (Some (id, name)) =>
              match sign kms arn name
                      (dump lib (certification_request_info self)) with
              | Return sig =>
                  (Return {| csr.certification_request_info :=
                               certification_request_info self;
                             csr.signature_algorithm := id;
                             csr.signature := sig |},
                   with_kms_signature_algo name self)
              | Raise e => (Raise e, with_kms_signature_algo name self)
              end
          end
      end
  end.
Proof.
  unfold build_with_kms. rewrite bind_run. unfold lift at 1.
  destruct (describe_key kms arn) as [kms_algos|e]; [|done].
  rewrite bind_run. unfold lift at 1.
  destruct (select_key_type kms_algos) as [sa|]; [|done].
  cbn [of_option].
  unfold sign_request. rewrite bind_run, negotiate_negotiation.
  destruct (negotiation sa _ _) as [[[id name]|]|e]; [| |done].
  - rewrite bind_run. unfold get. rewrite bind_run. unfold lift at 1.
    change (_kms_signature_algo (with_kms_signature_algo name self)) with name.
    change (certification_request_info (with_kms_signature_algo name self))
      with (certification_request_info self).
    by destruct (sign kms arn name _).
  - rewrite bind_run. unfold get. rewrite bind_run. unfold lift at 1.
    by destruct (sign kms arn _ _).
Qed.

Lemma negotiation_key_types (signature_algo hash : string) (pss : bool) :
  signature_algo = "rsa" ∨ signature_algo = "ecdsa" →
  negotiation signature_algo hash pss ≠ Return None.
Proof.
  intros [-> | ->]; unfold negotiation.
  - change (Py.str_in "ecdsa" "rsa") with false.
    change (Py.str_in "rsa" "rsa") with true. cbv iota.
    destruct pss; [destruct (Py.int _); [|done]|];
      by destruct (Py.list_in _ valid_algos).
  - change (Py.str_in "ecdsa" "ecdsa") with true. cbv iota.
    by destruct (Py.list_in _ valid_algos).
Qed.

Lemma negotiation_remote_name (signature_algo : string) (self : KMSCSRBuilder)
    (id : algos.SignatureAlgorithmId) (name : string) :
  signature_algo = "rsa" ∨ signature_algo = "ecdsa" →
  negotiation signature_algo (_hash_algo self)
    (Py.str_in "PSS" (_kms_signature_algo self)) = Return (Some (id, name)) →
  name = remote_name signature_algo self ∧
  Py.list_in name valid_algos = true.
Proof.
  intros [-> | ->]; unfold negotiation, remote_name.
  - change (Py.str_in "ecdsa" "rsa") with false.
    change (Py.str_in "rsa" "rsa") with true.
    change (String.eqb "rsa" "ecdsa") with false. cbv iota zeta.
    destruct (Py.str_in "PSS" _).
    + destruct (Py.int _); [|done].
      destruct (Py.list_in _ valid_algos) eqn:Hv; [|done].
      by intros [= <- <-].
    + destruct (Py.list_in _ valid_algos) eqn:Hv; [|done].
      by intros [= <- <-].
  - change (Py.str_in "ecdsa" "ecdsa") with true.
    change (String.eqb "ecdsa" "ecdsa") with true. cbv iota zeta.
    destruct (Py.list_in _ valid_algos) eqn:Hv; [|done].
    by intros [= <- <-].
Qed.

End BuildOutcomes.

(** A name of [valid_algos] contains "PSS" exactly when it starts with
    RSASSA_PSS_. *)
Lemma valid_name_pss (name : string) :
  Py.list_in name valid_algos = true →
  Py.str_in "PSS" name = is_rsa_pss_name name.
Proof.
  unfold Py.list_in, valid_algos. intros H%bool_decide_eq_true.
  repeat (apply elem_of_cons in H as [-> | H]; [by vm_compute|]).
  by apply elem_of_nil in H.
Qed.

Section BuildExtras.

Context (lib : Asn1Lib).

(** X1: a build that raises before the signer is reached (the description
    of the key fails, no key type is bound, or the negotiation raises)
    leaves the builder as it found it.  When the negotiation went through
    and the remote signer raises, the signer's exception is the one that
    leaves the build and the signing preference has been replaced by the
    negotiated name: the build does not put the old preference back.  A
    build that raises is in one of these two cases. *)
Theorem build_failure_effect (kms : KMSClient) (arn : string)
    (self : KMSCSRBuilder) :
  (∀ e, describe_key kms arn = Raise e →
        build_with_kms lib kms arn self = (Raise e, self)) ∧
  (∀ kms_algos, describe_key kms arn = Return kms_algos →
     (select_key_type kms_algos = None →
      build_with_kms lib kms arn self = (Raise UnboundLocalError, self)) ∧
     (∀ signature_algo, select_key_type kms_algos = Some signature_algo →
        (∀ e, (negotiate signature_algo self).1 = Raise e →
              build_with_kms lib kms arn self = (Raise e, self)) ∧
        (∀ id e,
           (negotiate signature_algo self).1 = Return (Some id) →
           sign kms arn (remote_name signature_algo self)
                (dump lib (certification_request_info self)) = Raise e →
           build_with_kms lib kms arn self
             = (Raise e,
                with_kms_signature_algo (remote_name signature_algo self)
                  self)))) ∧
  (∀ e self', build_with_kms lib kms arn self = (Raise e, self') →
     self' = self ∨
     (∃ kms_algos signature_algo,
        describe_key kms arn = Return kms_algos ∧
        select_key_type kms_algos = Some signature_algo ∧
        self' = with_kms_signature_algo (remote_name signature_algo self) self ∧
        sign kms arn (remote_name signature_algo self)
             (dump lib (certification_request_info self)) = Raise e)).
Proof.
  split; [|split].
  - intros e Hd. by rewrite build_with_kms_eval, Hd.
  - intros kms_algos Hd. split.
    + intros Hs. by rewrite build_with_kms_eval, Hd, Hs.
    + intros sa Hs.
      pose proof (select_key_type_cases _ _ Hs) as Hsa.
      rewrite build_with_kms_eval, Hd, Hs, negotiate_negotiation.
      destruct (negotiation sa (_hash_algo self)
                  (Py.str_in "PSS" (_kms_signature_algo self)))
        as [[[id name]|]|e0] eqn:Hn.
      * apply (negotiation_remote_name _ _ _ _ Hsa) in Hn as [-> _].
        split; [done|]. intros id' e _ Hsign. by rewrite Hsign.
      * by apply negotiation_key_types in Hn.
      * split; [|done]. by intros e [= <-].
  - intros e self'. rewrite build_with_kms_eval.
    destruct (describe_key kms arn) as [kms_algos|e0] eqn:Hd;
      [|intros [= _ <-]; by left].
    destruct (select_key_type kms_algos) as [sa|] eqn:Hs;
      [|intros [= _ <-]; by left].
    pose proof (select_key_type_cases _ _ Hs) as Hsa.
    destruct (negotiation sa _ _) as [[[id name]|]|e0] eqn:Hn.
    + apply (negotiation_remote_name _ _ _ _ Hsa) in Hn as [-> _].
      destruct (sign kms arn _ _) as [sig|e0] eqn:Hsig; [done|].
      intros [= <- <-]. right. by exists kms_algos, sa.
    + destruct (sign kms arn _ _); intros [= _ <-]; by left.
    + intros [= _ <-]. by left.
Qed.

(** X2: with the hash name sha1, which the setter accepts, no build
    returns, whatever the remote service answers, and the builder is left
    as it was. *)
Theorem build_never_returns_with_sha1 (kms : KMSClient) (arn : string)
    (self : KMSCSRBuilder) :
  _hash_algo self = "sha1" →
  ∃ e, build_with_kms lib kms arn self = (Raise e, self).
Proof.
  intros Hh. rewrite build_with_kms_eval.
  destruct (describe_key kms arn) as [kms_algos|e0]; [|by eexists].
  destruct (select_key_type kms_algos) as [sa|] eqn:Hs; [|by eexists].
  rewrite Hh.
  assert (Hn : negotiation sa "sha1"
                 (Py.str_in "PSS" (_kms_signature_algo self))
               = Raise ValueError).
  { destruct (select_key_type_cases _ _ Hs) as [-> | ->];
      by destruct (Py.str_in "PSS" _). }
  rewrite Hn. by eexists.
Qed.

(** X3: the signing preference does not survive a change of key type.
    After a build that returned against a key classified EC, a build that
    returns against a key classified RSA signs with PKCS1 v1.5, whatever
    the preference was before the first build. *)
Theorem preference_lost_across_key_types (kms1 kms2 : KMSClient)
    (arn1 arn2 : string) (algos1 algos2 : list string)
    (self s1 s2 : KMSCSRBuilder) (r1 r2 : csr.CertificationRequest) :
  describe_key kms1 arn1 = Return algos1 →
  select_key_type algos1 = Some "ecdsa" →
  build_with_kms lib kms1 arn1 self = (Return r1, s1) →
  describe_key kms2 arn2 = Return algos2 →
  select_key_type algos2 = Some "rsa" →
  build_with_kms lib kms2 arn2 s1 = (Return r2, s2) →
  csr.signature_algorithm r2
    = algos.AlgorithmDict (Py.fmt2 (_hash_algo self) "rsa") ∧
  _kms_signature_algo s2
    = Py.fmt2 "RSASSA_PKCS1_V1_5_SHA" (Py.last3 (_hash_algo self)).
Proof.
  intros Hd1 Hs1 Hb1 Hd2 Hs2 Hb2.
  rewrite build_with_kms_eval, Hd1, Hs1 in Hb1.
  destruct (negotiation "ecdsa" _ _) as [[[id1 name1]|]|e] eqn:Hn1;
    [| by destruct (sign kms1 arn1 _ _) | done].
  destruct (sign kms1 arn1 name1 _); [|done].
  injection Hb1 as _ <-.
  apply negotiation_remote_name in Hn1 as [Hname1 Hvalid1]; [|by right].
  rewrite build_with_kms_eval, Hd2, Hs2 in Hb2.
  change (_hash_algo (with_kms_signature_algo name1 self))
    with (_hash_algo self) in Hb2.
  change (_kms_signature_algo (with_kms_signature_algo name1 self))
    with name1 in Hb2.
  rewrite (valid_name_pss _ Hvalid1) in Hb2.
  assert (is_rsa_pss_name name1 = false) as Hpss by (by rewrite Hname1).
  rewrite Hpss in Hb2.
  assert (Hn2 : ∀ hash,
    negotiation "rsa" hash false =
    if Py.list_in (Py.fmt2 "RSASSA_PKCS1_V1_5_SHA" (Py.last3 hash)) valid_algos
    then Return (Some (algos.AlgorithmDict (Py.fmt2 hash "rsa"),
                       Py.fmt2 "RSASSA_PKCS1_V1_5_SHA" (Py.last3 hash)))
    else Raise ValueError) by done.
  rewrite Hn2 in Hb2.
  destruct (Py.list_in (Py.fmt2 "RSASSA_PKCS1_V1_5_SHA" _) valid_algos);
    [|done].
  destruct (sign kms2 arn2 _ _); [|done].
  by injection Hb2 as <- <-.
Qed.

(** X4: against keys of one type, a second build negotiates what the
    first did.  After a build that returned, a build against a key of the
    same type returns a request with the same signature algorithm and
    leaves the builder as the first build left it. *)
Theorem build_twice_same_key_type (kms1 kms2 : KMSClient)
    (arn1 arn2 : string) (algos1 algos2 : list string)
    (signature_algo : string)
    (self s1 s2 : KMSCSRBuilder) (r1 r2 : csr.CertificationRequest) :
  describe_key kms1 arn1 = Return algos1 →
  select_key_type algos1 = Some signature_algo →
  build_with_kms lib kms1 arn1 self = (Return r1, s1) →
  describe_key kms2 arn2 = Return algos2 →
  select_key_type algos2 = Some signature_algo →
  build_with_kms lib kms2 arn2 s1 = (Return r2, s2) →
  s2 = s1 ∧
  csr.signature_algorithm r2 = csr.signature_algorithm r1 ∧
  csr.certification_request_info r2 = csr.certification_request_info r1.
Proof.
  intros Hd1 Hs1 Hb1 Hd2 Hs2 Hb2.
  pose proof (select_key_type_cases _ _ Hs1) as Hsa.
  rewrite build_with_kms_eval, Hd1, Hs1 in Hb1.
  destruct (negotiation signature_algo _ _) as [[[id1 name1]|]|e] eqn:Hn1;
    [| by destruct (sign kms1 arn1 _ _) | done].
  destruct (sign kms1 arn1 name1 _); [|done].
  injection Hb1 as <- <-.
  pose proof (negotiation_remote_name _ _ _ _ Hsa Hn1) as [Hname1 Hvalid1].
  rewrite build_with_kms_eval, Hd2, Hs2 in Hb2.
  change (_hash_algo (with_kms_signature_algo name1 self))
    with (_hash_algo self) in Hb2.
  change (_kms_signature_algo (with_kms_signature_algo name1 self))
    with name1 in Hb2.
  change (certification_request_info (with_kms_signature_algo name1 self))
    with (certification_request_info self) in Hb2.
  assert (Hsame : negotiation signature_algo (_hash_algo self)
                    (Py.str_in "PSS" name1) = Return (Some (id1, name1))).
  { rewrite <- Hn1. destruct Hsa as [-> | ->]; [|done].
    f_equal. rewrite (valid_name_pss _ Hvalid1), Hname1. unfold remote_name.
    change (String.eqb "rsa" "ecdsa") with false. cbv iota zeta.
    by destruct (Py.str_in "PSS" (_kms_signature_algo self)). }
  rewrite Hsame in Hb2.
  destruct (sign kms2 arn2 name1 _); [|done].
  by injection Hb2 as <- <-.
Qed.

(** X5: a build does not read the key reference stored in the builder.
    Two builders that differ at most in [_kms_arn] give the same outcome,
    request included, and are left differing in [_kms_arn] at most: the
    key that signs is the one named in the call. *)
Theorem build_ignores_stored_kms_arn (kms : KMSClient) (arn : string)
    (a b : KMSCSRBuilder) :
  same_but_kms_arn a b →
  (build_with_kms lib kms arn b).1 = (build_with_kms lib kms arn a).1 ∧
  same_but_kms_arn (build_with_kms lib kms arn a).2
                   (build_with_kms lib kms arn b).2.
Proof.
  unfold same_but_kms_arn. intros ->. rewrite !build_with_kms_eval.
  change (_hash_algo (with_kms_arn _ _ a)) with (_hash_algo a).
  change (_kms_signature_algo (with_kms_arn _ _ a))
    with (_kms_signature_algo a).
  change (certification_request_info (with_kms_arn _ _ a))
    with (certification_request_info a).
  destruct (describe_key kms arn) as [kms_algos|e]; [|done].
  destruct (select_key_type kms_algos) as [sa|]; [|done].
  destruct (negotiation sa _ _) as [[[id name]|]|e]; [| |done].
  - by destruct (sign kms arn name _).
  - by destruct (sign kms arn _ _).
Qed.

End BuildExtras.

(** A P-256 key and the hash sha512: the signer refuses ECDSA_SHA_512 and
    the preference is replaced all the same. *)
Lemma build_failure_effect_witness :
  sign Stub.kms_p256 "arn:key" "ECDSA_SHA_512"
       (dump Stub.lib (certification_request_info Stub.fresh_sha512))
    = Raise ClientError ∧
  build_with_kms Stub.lib Stub.kms_p256 "arn:key" Stub.fresh_sha512
    = (Raise ClientError,
       with_kms_signature_algo "ECDSA_SHA_512" Stub.fresh_sha512) ∧
  _kms_signature_algo Stub.fresh_sha512 = "RSASSA_PSS_SHA_256".
Proof.
  assert (Hsign : sign Stub.kms_p256 "arn:key"
                    (remote_name "ecdsa" Stub.fresh_sha512)
                    (dump Stub.lib (certification_request_info Stub.fresh_sha512))
                  = Raise ClientError) by (by vm_compute).
  split; [exact Hsign|]. split; [|reflexivity].
  destruct (build_failure_effect Stub.lib Stub.kms_p256 "arn:key"
              Stub.fresh_sha512) as (_ & Hrun & _).
  destruct (Hrun ["ECDSA_SHA_256"] eq_refl) as (_ & Hkey).
  destruct (Hkey "ecdsa" eq_refl) as (_ & Hsigner).
  exact (Hsigner (algos.AlgorithmDict "sha512_ecdsa") ClientError
           eq_refl Hsign).
Defined.

Lemma build_never_returns_with_sha1_witness :
  ∃ e, build_with_kms Stub.lib Stub.kms_rsa "arn:key" Stub.fresh_sha1
       = (Raise e, Stub.fresh_sha1).
Proof.
  exact (build_never_returns_with_sha1 Stub.lib Stub.kms_rsa "arn:key"
           Stub.fresh_sha1 eq_refl).
Defined.

(** The default PSS preference, a build against a P-256 key, then a build
    against an RSA key. *)
Lemma preference_lost_across_key_types_witness :
  _kms_signature_algo Stub.fresh = "RSASSA_PSS_SHA_256" ∧
  ∃ r1 s1 r2 s2,
    build_with_kms Stub.lib Stub.kms_p256 "arn:key" Stub.fresh
      = (Return r1, s1) ∧
    build_with_kms Stub.lib Stub.kms_rsa "arn:key" s1 = (Return r2, s2) ∧
    csr.signature_algorithm r2 = algos.AlgorithmDict "sha256_rsa" ∧
    _kms_signature_algo s2 = "RSASSA_PKCS1_V1_5_SHA_256".
Proof.
  split; [reflexivity|].
  destruct (build_with_kms Stub.lib Stub.kms_p256 "arn:key" Stub.fresh)
    as [[r1|e] s1] eqn:H1; [|vm_compute in H1; discriminate].
  assert (Hs1 : s1 = with_kms_signature_algo "ECDSA_SHA_256" Stub.fresh).
  { vm_compute in H1. by injection H1 as _ <-. }
  destruct (build_with_kms Stub.lib Stub.kms_rsa "arn:key" s1)
    as [[r2|e] s2] eqn:H2; [|rewrite Hs1 in H2; vm_compute in H2; discriminate].
  exists r1, s1, r2, s2. split; [reflexivity|]. split; [exact H2|].
  exact (preference_lost_across_key_types Stub.lib
           Stub.kms_p256 Stub.kms_rsa "arn:key" "arn:key"
           ["ECDSA_SHA_256"] Stub.rsa_algos Stub.fresh s1 s2 r1 r2
           eq_refl eq_refl H1 eq_refl eq_refl H2).
Defined.

(** Two builds against RSA keys. *)
Lemma build_twice_same_key_type_witness :
  ∃ r1 s1 r2 s2,
    build_with_kms Stub.lib Stub.kms_rsa "arn:key" Stub.fresh_pkcs1
      = (Return r1, s1) ∧
    build_with_kms Stub.lib Stub.kms_rsa' "arn:key" s1 = (Return r2, s2) ∧
    s2 = s1 ∧
    csr.signature_algorithm r2 = csr.signature_algorithm r1.
Proof.
  destruct (build_with_kms Stub.lib Stub.kms_rsa "arn:key" Stub.fresh_pkcs1)
    as [[r1|e] s1] eqn:H1; [|vm_compute in H1; discriminate].
  assert (Hs1 : s1 = with_kms_signature_algo "RSASSA_PKCS1_V1_5_SHA_256"
                       Stub.fresh_pkcs1).
  { vm_compute in H1. by injection H1 as _ <-. }
  destruct (build_with_kms Stub.lib Stub.kms_rsa' "arn:key" s1)
    as [[r2|e] s2] eqn:H2; [|rewrite Hs1 in H2; vm_compute in H2; discriminate].
  exists r1, s1, r2, s2. split; [reflexivity|]. split; [exact H2|].
  destruct (build_twice_same_key_type Stub.lib
              Stub.kms_rsa Stub.kms_rsa' "arn:key" "arn:key"
              Stub.rsa_algos Stub.rsa_algos "rsa" Stub.fresh_pkcs1 s1 s2 r1 r2
              eq_refl eq_refl H1 eq_refl eq_refl H2) as (Hs & Hid & _).
  by split.
Defined.

(** A builder whose stored key reference names another key. *)
Lemma build_ignores_stored_kms_arn_witness :
  (build_with_kms Stub.lib Stub.kms_rsa "arn:key"
     (with_kms_arn "arn:other" [x30; x82] Stub.fresh)).1
  = (build_with_kms Stub.lib Stub.kms_rsa "arn:key" Stub.fresh).1.
Proof.
  exact (proj1 (build_ignores_stored_kms_arn Stub.lib Stub.kms_rsa "arn:key"
                  Stub.fresh (with_kms_arn "arn:other" [x30; x82] Stub.fresh)
                  eq_refl)).
Defined.

(** The two computed entries of the criticality policy. *)
Lemma determine_critical_facts (self : KMSCSRBuilder) :
  (_determine_critical "basic_constraints" self = true ↔ ca self = Some true) ∧
  (_determine_critical "subject_alt_name" self = true ↔ _subject self = []).
Proof.
  unfold _determine_critical. cbn. rewrite !bool_decide_eq_true.
  split; [done|]. by destruct (_subject self).
Qed.

(** ** More on the extension request *)

Section RequestExtensions.

Context (lib : Asn1Lib).

Lemma build_request_extensions (kms : KMSClient) (arn : string)
    (self self' : KMSCSRBuilder) (r : csr.CertificationRequest) :
  build_with_kms lib kms arn self = (Return r, self') →
  request_extensions r = extensions self.
Proof.
  intros (? & ? & _ & _ & _ & Hinfo & _)%build_with_kms_returns.
  unfold request_extensions. rewrite Hinfo.
  unfold certification_request_info. cbn [csr.attributes].
  destruct (extensions self); [done|].
  cbn. by rewrite !app_nil_r.
Qed.

Lemma elem_of_extensions (self : KMSCSRBuilder) (e : x509.Extension) :
  e ∈ extensions self ↔
  (x509.extn_id e ∈ _special_extensions ∧
   getattr_special (x509.extn_id e) self = Some (x509.extn_value e) ∧
   x509.critical e = _determine_critical (x509.extn_id e) self) ∨
  (_other_extensions self !! x509.extn_id e = Some (x509.extn_value e) ∧
   x509.critical e = _determine_critical (x509.extn_id e) self).
Proof.
  unfold extensions. rewrite elem_of_app, !list_elem_of_omap.
  split.
  - intros [(name & Hin & He) | (name & Hin & He)].
    + left. apply elem_of_sorted, elem_of_elements in Hin.
      destruct (getattr_special name self) as [v|] eqn:Hv; [|done].
      injection He as <-. by cbn.
    + right.
      destruct (_other_extensions self !! name) as [v|] eqn:Hv; [|done].
      injection He as <-. by cbn.
  - intros [(Hsp & Hget & Hc) | (Hget & Hc)].
    + left. exists (x509.extn_id e). split.
      * by apply elem_of_sorted, elem_of_elements.
      * rewrite Hget. cbn. f_equal. destruct e. cbn in *. by subst.
    + right. exists (x509.extn_id e). split.
      * apply elem_of_sorted, elem_of_elements, elem_of_dom. by eexists.
      * rewrite Hget. cbn. f_equal. destruct e. cbn in *. by subst.
Qed.

(** X6: every extension of a built request carries the criticality that
    [_determine_critical] gives for its identity on the builder the build
    found: key_usage is always critical and extended_key_usage never, and
    subject_alt_name is critical exactly when the subject is empty. *)
Theorem built_request_criticality (kms : KMSClient) (arn : string)
    (self self' : KMSCSRBuilder) (r : csr.CertificationRequest) :
  build_with_kms lib kms arn self = (Return r, self') →
  ∀ e, e ∈ request_extensions r →
    x509.critical e = _determine_critical (x509.extn_id e) self ∧
    (x509.extn_id e = "key_usage" → x509.critical e = true) ∧
    (x509.extn_id e = "extended_key_usage" → x509.critical e = false) ∧
    (x509.extn_id e = "basic_constraints" →
     (x509.critical e = true ↔ ca self = Some true)) ∧
    (x509.extn_id e = "subject_alt_name" →
     (x509.critical e = true ↔ _subject self = [])).
Proof.
  intros Hb e He. rewrite (build_request_extensions _ _ _ _ _ Hb) in He.
  assert (Hc : x509.critical e = _determine_critical (x509.extn_id e) self).
  { apply elem_of_extensions in He as [(_ & _ & Hc) | (_ & Hc)]; done. }
  split; [done|]. rewrite Hc.
  split; [by intros ->|]. split; [by intros ->|].
  split; intros ->; apply determine_critical_facts.
Qed.

End RequestExtensions.

Section RequestShape.

Context (lib : Asn1Lib).

(** X7: no extension identity occurs twice in a built request, when the
    builder keeps its two regions disjoint. *)
Theorem built_request_ids_NoDup (kms : KMSClient) (arn : string)
    (self self' : KMSCSRBuilder) (r : csr.CertificationRequest) :
  regions_disjoint self →
  build_with_kms lib kms arn self = (Return r, self') →
  NoDup (request_extension_ids r).
Proof.
  intros Hdisj Hb.
  rewrite (build_request_ids _ _ _ _ _ _ Hb), extensions_ids.
  apply NoDup_app. split; [|split].
  - apply NoDup_filter. decide_by_computation.
  - intros name [_ Hin]%list_elem_of_filter.
    rewrite elem_of_sorted, elem_of_elements, elem_of_dom.
    rewrite (Hdisj name); [by intros [? ?]|].
    apply elem_of_special.
    repeat (apply elem_of_cons in Hin as [-> | Hin]; [tauto|]).
    by apply elem_of_nil in Hin.
  - rewrite sorted_perm. apply NoDup_elements.
Qed.

(** X8: a value that [set_extension] accepted is what the next build
    sends: the request carries an extension with the canonical name of the
    identity, that value, and the criticality of the identity. *)
Theorem set_extension_reaches_request (name canonical : string)
    (v : x509.Asn1Value) (kms : KMSClient) (arn : string)
    (self self' : KMSCSRBuilder) (r : csr.CertificationRequest) :
  ExtensionId_native lib name = Return canonical →
  x509.class_of v = Extension_spec lib canonical →
  build_with_kms lib kms arn (set_extension lib name (Some v) self).2
    = (Return r, self') →
  {| x509.extn_id := canonical;
     x509.critical :=
       _determine_critical canonical (set_extension lib name (Some v) self).2;
     x509.extn_value := v |} ∈ request_extensions r.
Proof.
  intros Hid Hty Hb.
  rewrite (build_request_extensions _ _ _ _ _ _ Hb).
  apply elem_of_extensions. cbn [x509.extn_id x509.extn_value x509.critical].
  rewrite (set_extension_run _ _ _ _ _ Hid).
  unfold isinstance. rewrite bool_decide_eq_true_2; [|done]. cbn [snd].
  case_bool_decide as Hsp.
  - left. split; [done|]. split; [|done].
    apply (getattr_setattr_special lib); [done|]. by intros ? [= <-].
  - right. split; [|done]. cbn. apply lookup_insert_eq.
Qed.

(** X9: binding an identity of the open map and unbinding it with None
    gives back the builder, when the identity was not bound before. *)
Theorem set_extension_then_unset (name canonical : string)
    (v : x509.Asn1Value) (self : KMSCSRBuilder) :
  ExtensionId_native lib name = Return canonical →
  x509.class_of v = Extension_spec lib canonical →
  canonical ∉ _special_extensions →
  _other_extensions self !! canonical = None →
  set_extension lib name None (set_extension lib name (Some v) self).2
    = (Return tt, self).
Proof.
  intros Hid Hty Hsp Hnone.
  rewrite (set_extension_run _ _ _ (Some v) _ Hid).
  unfold isinstance. rewrite bool_decide_eq_true_2; [|done]. cbn [snd].
  rewrite (bool_decide_eq_false_2 _ Hsp).
  rewrite (set_extension_run _ _ _ None _ Hid).
  rewrite (bool_decide_eq_false_2 _ Hsp). f_equal.
  cbn [_other_extensions with_other_extensions].
  rewrite delete_insert_id; [by destruct self|done].
Qed.

(** X10: a built request has no attribute at all exactly when none of the
    four special fields is set and the open map is empty; otherwise it has
    the single attribute extension_request, holding one list with every
    extension. *)
Theorem built_request_attributes (kms : KMSClient) (arn : string)
    (self self' : KMSCSRBuilder) (r : csr.CertificationRequest) :
  build_with_kms lib kms arn self = (Return r, self') →
  (csr.attributes (csr.certification_request_info r) = [] ↔
   _basic_constraints self = None ∧ _subject_alt_name self = None ∧
   _key_usage self = None ∧ _extended_key_usage self = None ∧
   _other_extensions self = ∅) ∧
  (csr.attributes (csr.certification_request_info r) = [] ∨
   csr.attributes (csr.certification_request_info r)
     = [ {| csr.type := "extension_request";
            csr.values := [extensions self] |} ]).
Proof.
  intros (? & ? & _ & _ & _ & -> & _)%build_with_kms_returns.
  unfold certification_request_info. cbn [csr.attributes].
  assert (Hempty : extensions self = [] ↔
    _basic_constraints self = None ∧ _subject_alt_name self = None ∧
    _key_usage self = None ∧ _extended_key_usage self = None ∧
    _other_extensions self = ∅).
  { assert (Hids : extensions self = [] ↔
              x509.extn_id <$> extensions self = []).
    { split; [by intros ->|apply fmap_nil_inv]. }
    rewrite Hids, extensions_ids, app_nil, <- dom_empty_iff_L.
    split.
    - intros [Hsp Hot].
      assert (Hel : elements (dom (_other_extensions self)) = []).
      { apply Permutation_nil_r.
        by rewrite <- (sorted_perm (elements _)), Hot. }
      apply elements_empty_inv, leibniz_equiv in Hel.
      revert Hsp. destruct self as [? ? ? ? bc san ku eku ? ?]. cbn in *.
      by destruct bc, san, ku, eku.
    - intros (Hbc & Hsan & Hku & Heku & Hot). rewrite Hot, elements_empty.
      destruct self as [? ? ? ? bc san ku eku ? ?]. cbn in *. by subst. }
  split.
  - rewrite <- Hempty. by destruct (extensions self).
  - destruct (extensions self); [by left | by right].
Qed.

End RequestShape.

Lemma stub_busy_disjoint : regions_disjoint Stub.busy.
Proof.
  intros name [->| [->| [->| ->]]]%elem_of_special; by vm_compute.
Qed.

Lemma built_request_criticality_witness :
  ∃ r s',
    build_with_kms Stub.lib Stub.kms_rsa "arn:key" Stub.busy = (Return r, s') ∧
    ∀ e, e ∈ request_extensions r →
         x509.extn_id e = "key_usage" → x509.critical e = true.
Proof.
  destruct (build_with_kms Stub.lib Stub.kms_rsa "arn:key" Stub.busy)
    as [[r|e] s'] eqn:H; [|vm_compute in H; discriminate].
  exists r, s'. split; [reflexivity|]. intros e He.
  exact (proj1 (proj2 (built_request_criticality Stub.lib _ _ _ _ _ H e He))).
Defined.

Lemma built_request_ids_NoDup_witness :
  ∃ r s',
    build_with_kms Stub.lib Stub.kms_rsa "arn:key" Stub.busy = (Return r, s') ∧
    NoDup (request_extension_ids r).
Proof.
  destruct (build_with_kms Stub.lib Stub.kms_rsa "arn:key" Stub.busy)
    as [[r|e] s'] eqn:H; [|vm_compute in H; discriminate].
  exists r, s'. split; [reflexivity|].
  exact (built_request_ids_NoDup Stub.lib _ _ _ _ _ stub_busy_disjoint H).
Defined.

(** An issuer alternative name, given by OID, on the fresh builder. *)
Lemma set_extension_reaches_request_witness :
  ∃ r s',
    build_with_kms Stub.lib Stub.kms_rsa "arn:key"
      (set_extension Stub.lib "2.5.29.18"
         (Some (x509.VGeneralNames
                  [ {| x509.name := "dns_name"; x509.native := "ca.example" |} ]))
         Stub.fresh).2 = (Return r, s') ∧
    {| x509.extn_id := "issuer_alt_name";
       x509.critical := false;
       x509.extn_value :=
         x509.VGeneralNames
           [ {| x509.name := "dns_name"; x509.native := "ca.example" |} ] |}
      ∈ request_extensions r.
Proof.
  destruct (build_with_kms Stub.lib Stub.kms_rsa "arn:key" _)
    as [[r|e] s'] eqn:H; [|vm_compute in H; discriminate].
  exists r, s'. split; [reflexivity|].
  exact (set_extension_reaches_request Stub.lib "2.5.29.18" "issuer_alt_name"
           (x509.VGeneralNames
              [ {| x509.name := "dns_name"; x509.native := "ca.example" |} ])
           Stub.kms_rsa "arn:key" Stub.fresh s' r eq_refl eq_refl H).
Defined.

Lemma set_extension_then_unset_witness :
  set_extension Stub.lib "tls_feature" None
    (set_extension Stub.lib "tls_feature"
       (Some (x509.VOther "Features" [x05])) Stub.fresh).2
  = (Return tt, Stub.fresh).
Proof.
  apply (set_extension_then_unset Stub.lib "tls_feature" "tls_feature");
    [reflexivity | reflexivity | by vm_compute | by vm_compute].
Defined.

(** The fresh builder with its three default extensions cleared. *)
Lemma built_request_attributes_witness :
  ∃ r s',
    build_with_kms Stub.lib Stub.kms_rsa "arn:key"
      (with_extended_key_usage None
         (with_key_usage None (with_basic_constraints None Stub.fresh)))
      = (Return r, s') ∧
    csr.attributes (csr.certification_request_info r) = [].
Proof.
  destruct (build_with_kms Stub.lib Stub.kms_rsa "arn:key" _)
    as [[r|e] s'] eqn:H; [|vm_compute in H; discriminate].
  exists r, s'. split; [reflexivity|].
  apply (built_request_attributes Stub.lib _ _ _ _ _ H). by repeat split.
Defined.

(** ** More on the subject alternative names *)

Lemma with_subject_alt_name_twice (x y : option (list x509.GeneralName))
    (self : KMSCSRBuilder) :
  with_subject_alt_name x (with_subject_alt_name y self)
    = with_subject_alt_name x self.
Proof. reflexivity. Qed.

Lemma filter_Forall_id {A} (P : A → Prop) `{∀ x, Decision (P x)} (l : list A) :
  Forall P l → filter P l = l.
Proof.
  induction 1 as [|x l Hx _ IH]; [done|].
  rewrite filter_cons, decide_True by done. by f_equal.
Qed.

Lemma filter_Forall_nil {A} (P : A → Prop) `{∀ x, Decision (P x)} (l : list A) :
  Forall (λ x, ¬ P x) l → filter P l = [].
Proof.
  induction 1 as [|x l Hx _ IH]; [done|].
  by rewrite filter_cons, decide_False.
Qed.

Section SubjectAltExtras.

Context (lib : Asn1Lib).

Lemma new_names_kind (name : string) (values : option (list string)) :
  Forall (λ g, x509.name g = name)
    match values with
    | Some values => (GeneralNames_upto lib name values).1
    | None => []
    end.
Proof. destruct values; [apply GeneralNames_upto_names | constructor]. Qed.

(** X11: a subject-alternative-name setter is idempotent: a second call
    with the same values gives the outcome of the first and leaves the
    builder as the first did, also when the library refuses a value. *)
Theorem set_subject_alt_idempotent (name : string)
    (values : option (list string)) (self : KMSCSRBuilder) :
  _set_subject_alt lib name values (_set_subject_alt lib name values self).2
    = _set_subject_alt lib name values self.
Proof.
  destruct (_set_subject_alt_fields lib name values self) as [san Hsan].
  rewrite (_set_subject_alt_run lib name values
             (_set_subject_alt lib name values self).2).
  rewrite _set_subject_alt_entries, Hsan.
  rewrite filter_app, list_filter_filter.
  rewrite (filter_Forall_nil (λ g, x509.name g ≠ name)
             match values with
             | Some values => (GeneralNames_upto lib name values).1
             | None => []
             end).
  2:{ eapply Forall_impl; [apply new_names_kind|]. intros g Hg. by intros ?. }
  rewrite app_nil_r.
  rewrite (list_filter_iff _ (λ g, x509.name g ≠ name)); [|tauto].
  rewrite (_set_subject_alt_run lib name values self). cbv zeta.
  destruct (match values with
            | Some values => GeneralNames_upto lib name values
            | None => ([], None)
            end) as [gs [e|]]; reflexivity.
Qed.

(** X12: the stored order follows the order of the calls.  After the
    domains and then the IPs are set, the field holds the entries of the
    other kinds, then the domains, then the IPs; after the IPs and then the
    domains, the IPs come before the domains. *)
Theorem subject_alt_setters_order (domains ips : option (list string))
    (self : KMSCSRBuilder) :
  let others := filter (λ g, x509.name g ≠ "ip_address" ∧
                             x509.name g ≠ "dns_name")
                       (default [] (_subject_alt_name self)) in
  let D := (GeneralNames_upto lib "dns_name" (default [] domains)).1 in
  let I := (GeneralNames_upto lib "ip_address" (default [] ips)).1 in
  default [] (_subject_alt_name
    (subject_alt_ips_setter lib ips
       (subject_alt_domains_setter lib domains self).2).2)
    = (others ++ D ++ I)%list ∧
  default [] (_subject_alt_name
    (subject_alt_domains_setter lib domains
       (subject_alt_ips_setter lib ips self).2).2)
    = (others ++ I ++ D)%list.
Proof.
  cbv zeta. unfold subject_alt_ips_setter, subject_alt_domains_setter.
  assert (HD : match domains with
               | Some values => (GeneralNames_upto lib "dns_name" values).1
               | None => []
               end = (GeneralNames_upto lib "dns_name" (default [] domains)).1)
    by (by destruct domains).
  assert (HI : match ips with
               | Some values => (GeneralNames_upto lib "ip_address" values).1
               | None => []
               end = (GeneralNames_upto lib "ip_address" (default [] ips)).1)
    by (by destruct ips).
  rewrite !_set_subject_alt_entries, HD, HI, !filter_app, !list_filter_filter.
  rewrite (filter_Forall_id (λ g, x509.name g ≠ "ip_address")
             (GeneralNames_upto lib "dns_name" (default [] domains)).1).
  2:{ eapply Forall_impl; [apply GeneralNames_upto_names|].
      intros g ->. done. }
  rewrite (filter_Forall_id (λ g, x509.name g ≠ "dns_name")
             (GeneralNames_upto lib "ip_address" (default [] ips)).1).
  2:{ eapply Forall_impl; [apply GeneralNames_upto_names|].
      intros g ->. done. }
  rewrite <- !app_assoc. split; [done|].
  f_equal. apply list_filter_iff. tauto.
Qed.

(** X13: when the library refuses a value, the setter raises with the
    field holding the entries kept and the names built so far, never None,
    even when that list is empty: a request built from that builder
    carries a subject_alt_name extension. *)
Theorem set_subject_alt_failure (name : string)
    (values : option (list string)) (self : KMSCSRBuilder) (e : exn) :
  (_set_subject_alt lib name values self).1 = Raise e →
  (∃ vs, values = Some vs ∧
     (GeneralNames_upto lib name vs).2 = Some e ∧
     _subject_alt_name (_set_subject_alt lib name values self).2
       = Some (filter (λ g, x509.name g ≠ name)
                      (default [] (_subject_alt_name self))
               ++ (GeneralNames_upto lib name vs).1)%list) ∧
  ∀ kms arn r self',
    build_with_kms lib kms arn (_set_subject_alt lib name values self).2
      = (Return r, self') →
    "subject_alt_name" ∈ request_extension_ids r.
Proof.
  rewrite _set_subject_alt_run. cbv zeta.
  destruct values as [vs|]; [|done].
  destruct (GeneralNames_upto lib name vs) as [gs [e0|]] eqn:Hup; [|done].
  cbn [fst snd]. intros [= ->]. split.
  - exists vs. by rewrite Hup.
  - intros kms arn r self' Hb.
    rewrite (build_request_ids _ _ _ _ _ _ Hb), extensions_ids.
    apply elem_of_app. left. apply list_elem_of_filter. split.
    + by eexists.
    + do 3 apply list_elem_of_further. apply list_elem_of_here.
Qed.

End SubjectAltExtras.

Lemma set_subject_alt_idempotent_witness :
  _set_subject_alt Stub.lib "dns_name" (Some ["b.example"; ""])
    (_set_subject_alt Stub.lib "dns_name" (Some ["b.example"; ""])
       Stub.busy).2
  = _set_subject_alt Stub.lib "dns_name" (Some ["b.example"; ""]) Stub.busy.
Proof.
  exact (set_subject_alt_idempotent Stub.lib "dns_name"
           (Some ["b.example"; ""]) Stub.busy).
Defined.

Lemma subject_alt_setters_order_witness :
  default [] (_subject_alt_name
    (subject_alt_ips_setter Stub.lib (Some ["10.0.0.2"])
       (subject_alt_domains_setter Stub.lib (Some ["b.example"])
          Stub.busy).2).2)
  = [ {| x509.name := "dns_name"; x509.native := "b.example" |};
      {| x509.name := "ip_address"; x509.native := "10.0.0.2" |} ] ∧
  default [] (_subject_alt_name
    (subject_alt_domains_setter Stub.lib (Some ["b.example"])
       (subject_alt_ips_setter Stub.lib (Some ["10.0.0.2"]) Stub.busy).2).2)
  = [ {| x509.name := "ip_address"; x509.native := "10.0.0.2" |};
      {| x509.name := "dns_name"; x509.native := "b.example" |} ].
Proof.
  pose proof (subject_alt_setters_order Stub.lib (Some ["b.example"])
                (Some ["10.0.0.2"]) Stub.busy) as [H1 H2].
  split; [rewrite H1 | rewrite H2]; by vm_compute.
Defined.

(** On the fresh builder, which has no alternative name, a refused domain
    leaves the empty list behind, and the request carries the extension. *)
Lemma set_subject_alt_failure_witness :
  _subject_alt_name Stub.fresh = None ∧
  _set_subject_alt Stub.lib "dns_name" (Some [""]) Stub.fresh
    = (Raise ValueError, with_subject_alt_name (Some []) Stub.fresh) ∧
  ∃ r s',
    build_with_kms Stub.lib Stub.kms_rsa "arn:key"
      (_set_subject_alt Stub.lib "dns_name" (Some [""]) Stub.fresh).2
      = (Return r, s') ∧
    "subject_alt_name" ∈ request_extension_ids r.
Proof.
  split; [reflexivity|]. split; [by vm_compute|].
  destruct (build_with_kms Stub.lib Stub.kms_rsa "arn:key" _)
    as [[r|e] s'] eqn:H; [|vm_compute in H; discriminate].
  exists r, s'. split; [reflexivity|].
  refine (proj2 (set_subject_alt_failure Stub.lib "dns_name" (Some [""])
                   Stub.fresh ValueError _) _ _ _ _ H).
  by vm_compute.
Defined.

Lemma init_defaults_hash (lib : Asn1Lib) (kms : KMSClient)
    (subject : SubjectArg) (arn : string) (self : KMSCSRBuilder)
    (printed : list string) :
  __init__ lib kms subject arn = (Return self, printed) →
  _hash_algo self = "sha256" ∧ _kms_signature_algo self = "RSASSA_PSS_SHA_256".
Proof.
  unfold __init__.
  destruct (subject_value lib subject); [|done].
  destruct (kms_arn_lookup lib kms arn) as [[pk|] out]; [|done].
  by intros [= <- _].
Qed.

(** ** The constructor and the invariant of a builder *)

Section Lifecycle.

Context (lib : Asn1Lib) (ulib : UsageLib).

(** X14: a constructor that returns has printed nothing, has found a
    signing key that loads, and leaves a builder with the defaults: hash
    sha256, preference RSASSA_PSS_SHA_256, ca false with the key usages of
    an end entity, no alternative name and an empty open map, so that a
    request built right away asks for basic_constraints,
    extended_key_usage and key_usage. *)
Theorem init_defaults (kms : KMSClient) (subject : SubjectArg) (arn : string)
    (self : KMSCSRBuilder) (printed : list string) :
  __init__ lib kms subject arn = (Return self, printed) →
  printed = [] ∧
  subject_value lib subject = Return (_subject self) ∧
  (∃ r, get_public_key kms arn = Return r ∧
        KeyUsage r = "SIGN_VERIFY" ∧
        load_public_key lib (PublicKey r) = Return (_subject_public_key self)) ∧
  _kms_arn self = arn ∧
  _hash_algo self = "sha256" ∧
  _kms_signature_algo self = "RSASSA_PSS_SHA_256" ∧
  ca self = Some false ∧
  key_usage self = {[ "digital_signature"; "key_encipherment" ]} ∧
  extended_key_usage self = {[ "server_auth"; "client_auth" ]} ∧
  subject_alt_domains self = [] ∧
  subject_alt_ips self = [] ∧
  _other_extensions self = ∅ ∧
  x509.extn_id <$> extensions self
    = ["basic_constraints"; "extended_key_usage"; "key_usage"].
Proof.
  unfold __init__, kms_arn_lookup.
  destruct (subject_value lib subject) as [n|]; [|done].
  destruct (get_public_key kms arn) as [r|]; [|done].
  destruct (String.eqb_spec (KeyUsage r) "SIGN_VERIFY") as [Hu|]; [|done].
  cbn [negb].
  destruct (load_public_key lib (PublicKey r)) as [pk|] eqn:Hpk; [|done].
  intros [= <- <-].
  split; [done|]. split; [done|]. split; [by exists r|].
  do 6 (split; [done|]). split; [done|]. split; [done|]. split; [done|].
  rewrite extensions_ids. cbn [_other_extensions].
  rewrite dom_empty_L, elements_empty. by vm_compute.
Qed.

Lemma well_formed_frame (a b : KMSCSRBuilder) :
  _hash_algo b = _hash_algo a →
  _kms_signature_algo b = _kms_signature_algo a →
  _other_extensions b = _other_extensions a →
  well_formed a → well_formed b.
Proof.
  intros Hh Hp Ho (? & ? & ?). unfold well_formed. rewrite Hh, Hp.
  split; [done|]. split; [done|]. by apply (regions_disjoint_frame a).
Qed.

Lemma negotiation_valid (signature_algo hash : string) (pss : bool)
    (id : algos.SignatureAlgorithmId) (name : string) :
  negotiation signature_algo hash pss = Return (Some (id, name)) →
  name ∈ valid_algos.
Proof.
  assert (Hacc : ∀ (i : algos.SignatureAlgorithmId) (n : string),
    (if Py.list_in n valid_algos then Return (Some (i, n))
     else Raise ValueError) = Return (Some (id, name)) → name ∈ valid_algos).
  { intros i n. unfold Py.list_in. case_bool_decide; [|done].
    by intros [= _ <-]. }
  unfold negotiation.
  destruct (Py.str_in "ecdsa" signature_algo); [apply Hacc|].
  destruct (Py.str_in "rsa" signature_algo); [|done].
  destruct pss; [|apply Hacc].
  destruct (Py.int _); [apply Hacc|done].
Qed.

Lemma set_extension_frame (name : string) (value : option x509.Asn1Value)
    (self : KMSCSRBuilder) :
  _hash_algo (set_extension lib name value self).2 = _hash_algo self ∧
  _kms_signature_algo (set_extension lib name value self).2
    = _kms_signature_algo self ∧
  _subject (set_extension lib name value self).2 = _subject self ∧
  _subject_public_key (set_extension lib name value self).2
    = _subject_public_key self.
Proof.
  destruct (ExtensionId_native lib name) as [canonical|e] eqn:Hid.
  - rewrite (set_extension_run _ _ _ _ _ Hid).
    destruct (match value with
              | Some v => isinstance v (Extension_spec lib canonical)
              | None => true
              end); [|done].
    cbn [snd]. case_bool_decide; [|done].
    unfold setattr_special.
    repeat (destruct (String.eqb canonical _); [done|]). done.
  - unfold set_extension. rewrite bind_run. unfold lift. by rewrite Hid.
Qed.

Lemma usage_setters_frame (value : SetArg) (self : KMSCSRBuilder) :
  (∃ v, (key_usage_setter ulib value self).2 = with_key_usage v self ∨
        (key_usage_setter ulib value self).2 = self) ∧
  (∃ v, (extended_key_usage_setter ulib value self).2
          = with_extended_key_usage v self ∨
        (extended_key_usage_setter ulib value self).2 = self).
Proof.
  unfold key_usage_setter, extended_key_usage_setter.
  destruct value as [|s|].
  - split; exists None; by left.
  - case_bool_decide.
    + split; exists None; by left.
    + rewrite !bind_run. unfold lift. split.
      * destruct (KeyUsage_new ulib s) as [v|];
          [exists (Some v); by left | exists None; by right].
      * destruct (ExtKeyUsageSyntax_new ulib s) as [v|];
          [exists (Some v); by left | exists None; by right].
  - split; exists None; by right.
Qed.

Lemma after_well_formed (c : Call) (self : KMSCSRBuilder) :
  well_formed self → well_formed (after lib ulib c self).
Proof.
  intros Hwf. destruct c as [v|kms v|v|v|v|v|v|v|v|name v|kms arn];
    cbn [after].
  - revert Hwf. apply well_formed_frame;
      unfold subject; rewrite bind_run; unfold lift;
      by destruct (subject_value lib v).
  - revert Hwf. apply well_formed_frame;
      unfold kms_arn; by destruct (kms_arn_lookup lib kms v) as [[pk|e] out].
  - rewrite hash_algo_run. unfold Py.list_in. case_bool_decide; [|done].
    destruct Hwf as (_ & ? & ?). by repeat split.
  - rewrite kms_signature_algo_run. unfold Py.list_in.
    case_bool_decide; [|done].
    destruct Hwf as (? & _ & ?). by repeat split.
  - revert Hwf. rewrite ca_setter_run.
    apply well_formed_frame; by destruct v as [[]|].
  - revert Hwf. unfold subject_alt_domains_setter.
    destruct (_set_subject_alt_fields lib "dns_name" v self) as [san ->].
    by apply well_formed_frame.
  - revert Hwf. unfold subject_alt_ips_setter.
    destruct (_set_subject_alt_fields lib "ip_address" v self) as [san ->].
    by apply well_formed_frame.
  - revert Hwf.
    destruct (usage_setters_frame v self) as [[x [-> | ->]] _];
      by apply well_formed_frame.
  - revert Hwf.
    destruct (usage_setters_frame v self) as [_ [x [-> | ->]]];
      by apply well_formed_frame.
  - destruct Hwf as (Hh & Hp & Hd).
    destruct (set_extension_frame name v self) as (Hh' & Hp' & _).
    unfold well_formed. rewrite Hh', Hp'.
    split; [done|]. split; [done|].
    by apply set_extension_regions_disjoint.
  - rewrite build_with_kms_eval.
    destruct (describe_key kms arn) as [kms_algos|]; [|done].
    destruct (select_key_type kms_algos) as [sa|]; [|done].
    destruct (negotiation sa _ _) as [[[id n]|]|] eqn:Hn; [| |done].
    + apply negotiation_valid in Hn.
      assert (well_formed (with_kms_signature_algo n self)).
      { destruct Hwf as (? & _ & ?). by repeat split. }
      by destruct (sign kms arn n _).
    + by destruct (sign kms arn _ _).
Qed.

(** X15: whatever is called on a builder after its construction, and
    whether the calls return or raise, the hash name stays one of sha1,
    sha256 and sha512, the signing preference stays a name of
    [valid_algos], and no special identity becomes a key of the open
    map. *)
Theorem well_formed_after_calls (kms : KMSClient) (subject : SubjectArg)
    (arn : string) (self : KMSCSRBuilder) (printed : list string)
    (calls : list Call) :
  __init__ lib kms subject arn = (Return self, printed) →
  well_formed (foldl (λ s c, after lib ulib c s) self calls).
Proof.
  intros Hinit.
  assert (Hwf : well_formed self).
  { split; [|split].
    - apply init_defaults_hash in Hinit as [-> _]. decide_by_computation.
    - apply init_defaults_hash in Hinit as [_ ->]. decide_by_computation.
    - by eapply init_regions_disjoint. }
  clear Hinit. revert self Hwf.
  induction calls as [|c calls IH]; intros self Hwf; [done|].
  cbn [foldl]. by apply IH, after_well_formed.
Qed.

End Lifecycle.

Lemma init_defaults_witness :
  __init__ Stub.lib Stub.kms_rsa (SubjectDict [("common_name", "x")]) "arn:key"
    = (Return Stub.fresh, []) ∧
  x509.extn_id <$> extensions Stub.fresh
    = ["basic_constraints"; "extended_key_usage"; "key_usage"].
Proof.
  assert (H : __init__ Stub.lib Stub.kms_rsa
                (SubjectDict [("common_name", "x")]) "arn:key"
              = (Return Stub.fresh, [])) by (by vm_compute).
  split; [exact H|].
  exact (proj2 (proj2 (proj2 (proj2 (proj2 (proj2 (proj2 (proj2 (proj2
           (proj2 (proj2 (proj2
              (init_defaults Stub.lib _ _ _ _ _ H))))))))))))).
Defined.

(** A run of calls in which three raise: a hash the setter refuses, a
    build with sha1, and a domain the library refuses. *)
Lemma well_formed_after_calls_witness :
  well_formed
    (foldl (λ s c, after Stub.lib Stub.ulib c s) Stub.fresh
       [ CallHashAlgo "sha384";
         CallHashAlgo "sha1";
         CallBuildWithKms Stub.kms_rsa "arn:key";
         CallSetExtension "2.5.29.19" None;
         CallSubjectAltDomains (Some ["a.example"; ""]);
         CallHashAlgo "sha512";
         CallBuildWithKms Stub.kms_ecdsa "arn:key" ]).
Proof.
  apply (well_formed_after_calls Stub.lib Stub.ulib Stub.kms_rsa
           (SubjectDict [("common_name", "x")]) "arn:key" Stub.fresh []).
  by vm_compute.
Defined.

(** ** The setters of the usages and of the subject *)

Section PlainSetters.

Context (lib : Asn1Lib) (ulib : UsageLib).

(** X16: assigning None or the empty set to key_usage or to
    extended_key_usage clears the field: the reader gives the empty set
    and a request built from the result carries no such extension.  A
    value that is neither a set nor None raises TypeError, and a set the
    library refuses raises the library's exception; in both cases the
    builder is left unchanged.  A non-empty set the library accepts is
    read back as the library built it. *)
Theorem usage_setters_clear_and_fail (value : SetArg) (self : KMSCSRBuilder) :
  (value = ArgNone ∨ value = ArgSet ∅ →
   key_usage_setter ulib value self = (Return tt, with_key_usage None self) ∧
   key_usage (key_usage_setter ulib value self).2 = ∅ ∧
   extended_key_usage_setter ulib value self
     = (Return tt, with_extended_key_usage None self) ∧
   extended_key_usage (extended_key_usage_setter ulib value self).2 = ∅ ∧
   (regions_disjoint self →
    ∀ kms arn r self',
      (build_with_kms lib kms arn (key_usage_setter ulib value self).2
         = (Return r, self') →
       "key_usage" ∉ request_extension_ids r) ∧
      (build_with_kms lib kms arn
         (extended_key_usage_setter ulib value self).2 = (Return r, self') →
       "extended_key_usage" ∉ request_extension_ids r))) ∧
  (value = ArgOther →
   key_usage_setter ulib value self = (Raise TypeError, self) ∧
   extended_key_usage_setter ulib value self = (Raise TypeError, self)) ∧
  (∀ s e, value = ArgSet s → s ≠ ∅ →
     (KeyUsage_new ulib s = Raise e →
      key_usage_setter ulib value self = (Raise e, self)) ∧
     (ExtKeyUsageSyntax_new ulib s = Raise e →
      extended_key_usage_setter ulib value self = (Raise e, self))) ∧
  (∀ s v l, value = ArgSet s → s ≠ ∅ →
     (KeyUsage_new ulib s = Return v →
      key_usage (key_usage_setter ulib value self).2 = v) ∧
     (ExtKeyUsageSyntax_new ulib s = Return l →
      extended_key_usage (extended_key_usage_setter ulib value self).2
        = list_to_set l)).
Proof.
  split; [|split; [|split]].
  - intros Hclear.
    assert (Hku : key_usage_setter ulib value self
                  = (Return tt, with_key_usage None self)).
    { destruct Hclear as [-> | ->]; [done|].
      unfold key_usage_setter. by rewrite bool_decide_eq_true_2. }
    assert (Heku : extended_key_usage_setter ulib value self
                   = (Return tt, with_extended_key_usage None self)).
    { destruct Hclear as [-> | ->]; [done|].
      unfold extended_key_usage_setter. by rewrite bool_decide_eq_true_2. }
    rewrite Hku, Heku. cbn [snd].
    do 4 (split; [done|]).
    intros Hdisj kms arn r self'. split; intros Hb.
    + eapply (build_omits_unset_special lib); [| | |exact Hb]; [done| |done].
      apply elem_of_special. tauto.
    + eapply (build_omits_unset_special lib); [| | |exact Hb]; [done| |done].
      apply elem_of_special. tauto.
  - by intros ->.
  - intros s e -> Hs. unfold key_usage_setter, extended_key_usage_setter.
    rewrite bool_decide_eq_false_2 by done. rewrite !bind_run. unfold lift.
    split; by intros ->.
  - intros s v l -> Hs. unfold key_usage_setter, extended_key_usage_setter.
    rewrite bool_decide_eq_false_2 by done. rewrite !bind_run. unfold lift.
    split; by intros ->.
Qed.

(** X17: the subject setter raises TypeError for a value that is neither
    a name nor a dict and passes on the exception of Name.build, the
    builder unchanged; otherwise it replaces the subject and nothing else,
    and a request built next names that subject together with the public
    key cached by the kms_arn setter. *)
Theorem subject_setter_effect (value : SubjectArg) (self : KMSCSRBuilder) :
  subject lib SubjectOther self = (Raise TypeError, self) ∧
  (∀ d e, value = SubjectDict d → Name_build lib d = Raise e →
          subject lib value self = (Raise e, self)) ∧
  (∀ n, value = SubjectName n ∨
        (∃ d, value = SubjectDict d ∧ Name_build lib d = Return n) →
     subject lib value self = (Return tt, with_subject n self) ∧
     ∀ kms arn r self',
       build_with_kms lib kms arn (subject lib value self).2
         = (Return r, self') →
       csr.subject (csr.certification_request_info r) = n ∧
       csr.subject_pk_info (csr.certification_request_info r)
         = _subject_public_key self ∧
       request_extension_ids r = x509.extn_id <$> extensions self).
Proof.
  split; [done|]. split.
  - intros d e -> Hd. unfold subject. rewrite bind_run. unfold lift.
    cbn [subject_value]. by rewrite Hd.
  - intros n Hn.
    assert (Hs : subject lib value self = (Return tt, with_subject n self)).
    { unfold subject. rewrite bind_run. unfold lift.
      destruct Hn as [-> | (d & -> & Hd)]; cbn [subject_value];
        [done | by rewrite Hd]. }
    rewrite Hs. split; [done|]. cbn [snd].
    intros kms arn r self' Hb.
    pose proof (build_request_ids _ _ _ _ _ _ Hb) as Hids.
    apply build_with_kms_returns in Hb as (? & ? & _ & _ & _ & -> & _).
    split; [done|]. split; [done|].
    rewrite Hids, !extensions_ids. reflexivity.
Qed.

End PlainSetters.

Lemma usage_setters_clear_and_fail_witness :
  key_usage (key_usage_setter Stub.ulib (ArgSet ∅) Stub.fresh).2 = ∅ ∧
  ∃ r s',
    build_with_kms Stub.lib Stub.kms_rsa "arn:key"
      (key_usage_setter Stub.ulib (ArgSet ∅) Stub.fresh).2 = (Return r, s') ∧
    "key_usage" ∉ request_extension_ids r.
Proof.
  destruct (usage_setters_clear_and_fail Stub.lib Stub.ulib (ArgSet ∅)
              Stub.fresh) as (Hclear & _).
  destruct (Hclear (or_intror eq_refl)) as (_ & Hread & _ & _ & Hbuild).
  split; [exact Hread|].
  destruct (build_with_kms Stub.lib Stub.kms_rsa "arn:key" _)
    as [[r|e] s'] eqn:H; [|vm_compute in H; discriminate].
  exists r, s'. split; [reflexivity|].
  refine (proj1 (Hbuild _ Stub.kms_rsa "arn:key" r s') H).
  intros name _. apply lookup_empty.
Defined.

Lemma subject_setter_effect_witness :
  ∃ r s',
    build_with_kms Stub.lib Stub.kms_rsa "arn:key"
      (subject Stub.lib (SubjectDict [("common_name", "y")]) Stub.fresh).2
      = (Return r, s') ∧
    csr.subject (csr.certification_request_info r) = [("common_name", "y")].
Proof.
  destruct (subject_setter_effect Stub.lib
              (SubjectDict [("common_name", "y")]) Stub.fresh)
    as (_ & _ & Hset).
  destruct (Hset [("common_name", "y")]) as (_ & Hbuild).
  { right. by exists [("common_name", "y")]. }
  destruct (build_with_kms Stub.lib Stub.kms_rsa "arn:key" _)
    as [[r|e] s'] eqn:H; [|vm_compute in H; discriminate].
  exists r, s'. split; [reflexivity|].
  exact (proj1 (Hbuild _ _ _ _ H)).
Defined.

(** ** What a build reads of the signing preference *)

Section Preference.

Context (lib : Asn1Lib).

(** X18: a build reads the signing preference only for a key classified
    RSA, and then only whether the name contains PSS.  Assigning a name
    that agrees with the stored one on that point (any name at all for a
    key that is not classified RSA) changes neither the outcome of the
    next build nor, when the build returns, the builder it leaves. *)
Theorem preference_read_only_for_pss (kms : KMSClient) (arn value : string)
    (self : KMSCSRBuilder) :
  (∀ kms_algos, describe_key kms arn = Return kms_algos →
     "RSASSA_PSS_SHA_256" ∈ kms_algos →
     Py.str_in "PSS" value = Py.str_in "PSS" (_kms_signature_algo self)) →
  (build_with_kms lib kms arn (kms_signature_algo value self).2).1
    = (build_with_kms lib kms arn self).1 ∧
  ∀ r self',
    build_with_kms lib kms arn self = (Return r, self') →
    build_with_kms lib kms arn (kms_signature_algo value self).2
      = (Return r, self').
Proof.
  intros Hpss. rewrite kms_signature_algo_run.
  destruct (Py.list_in value valid_algos); [|done]. cbn [snd].
  rewrite !build_with_kms_eval.
  change (_hash_algo (with_kms_signature_algo value self))
    with (_hash_algo self).
  change (_kms_signature_algo (with_kms_signature_algo value self))
    with value.
  change (certification_request_info (with_kms_signature_algo value self))
    with (certification_request_info self).
  destruct (describe_key kms arn) as [kms_algos|e]; [|done].
  specialize (Hpss kms_algos eq_refl).
  destruct (select_key_type kms_algos) as [sa|] eqn:Hsel; [|done].
  assert (Hsa : sa = "rsa" ∨ sa = "ecdsa").
  { revert Hsel. unfold select_key_type.
    destruct (Py.list_in "RSASSA_PSS_SHA_256" kms_algos);
      [intros [= <-]; by left|].
    destruct (Py.list_in "ECDSA_SHA_256" kms_algos); [|done].
    intros [= <-]. by right. }
  assert (Hneg : negotiation sa (_hash_algo self) (Py.str_in "PSS" value)
                 = negotiation sa (_hash_algo self)
                     (Py.str_in "PSS" (_kms_signature_algo self))).
  { revert Hsel. unfold select_key_type, Py.list_in at 1.
    case_bool_decide as Hin; [by rewrite Hpss|].
    destruct (Py.list_in "ECDSA_SHA_256" kms_algos); [|done].
    intros [= <-]. unfold negotiation.
    by change (Py.str_in "ecdsa" "ecdsa") with true. }
  rewrite Hneg. clear Hneg.
  pose proof (negotiation_key_types sa (_hash_algo self)
                (Py.str_in "PSS" (_kms_signature_algo self)) Hsa) as Hsome.
  destruct (negotiation sa (_hash_algo self)
              (Py.str_in "PSS" (_kms_signature_algo self)))
    as [[[id name]|]|e].
  - destruct (sign kms arn name _) as [sig|e]; [|by split].
    split; [done|]. by intros r self' [= <- <-].
  - done.
  - by split.
Qed.

End Preference.

(** An RSA key and the default preference: asking for RSASSA_PSS_SHA_512
    does not change the request, whose hash is the one of [hash_algo]. *)
Lemma preference_read_only_for_pss_witness :
  ∃ r s',
    build_with_kms Stub.lib Stub.kms_rsa "arn:key" Stub.fresh = (Return r, s') ∧
    build_with_kms Stub.lib Stub.kms_rsa "arn:key"
      (kms_signature_algo "RSASSA_PSS_SHA_512" Stub.fresh).2 = (Return r, s') ∧
    _kms_signature_algo s' = "RSASSA_PSS_SHA_256".
Proof.
  destruct (build_with_kms Stub.lib Stub.kms_rsa "arn:key" Stub.fresh)
    as [[r|e] s'] eqn:H; [|vm_compute in H; discriminate].
  exists r, s'. split; [reflexivity|]. split.
  - refine (proj2 (preference_read_only_for_pss Stub.lib Stub.kms_rsa
                     "arn:key" "RSASSA_PSS_SHA_512" Stub.fresh _) r s' H).
    intros kms_algos _ _. by vm_compute.
  - vm_compute in H. by injection H as _ <-.
Defined.
